(** * The Hyper-V systems driver of sushy-tools

    A shallow embedding of
    [sushy_tools/emulator/resources/systems/hypervdriver.py]: the power
    operations, the boot-device operations for the two virtual-hardware
    generations and the boot-mode operations of [HyperVDriver], over an
    abstract model of the [os_win] [vmutils] object the driver talks to.

    Python exceptions are values of [exn]; a method is a function from a
    [world] (the hypervisor host plus the log of the [vmutils] calls made so
    far) to an outcome and the world it leaves behind. *)

From Stdlib Require Import ZArith String Ascii List Bool Permutation Lia.
From stdpp Require Import gmap strings.
Import ListNotations.

Open Scope string_scope.
Open Scope list_scope.
Open Scope Z_scope.

(** ** Exceptions *)

(** Modelled from the spec: [sushy_tools.error] is imported by the driver but
    its class declarations are not part of the file.  The spec names two error
    kinds of this layer, BackendError ([FishyError]) and UnsupportedOperation
    ([NotSupportedError]), the second being one of the first's kinds: it
    passes an [except error.FishyError] clause.  [IndexError],
    [StopIteration] and [ValueError] are the Python built-ins raised by
    [seq[0]], [next] and [list.remove]; [BackendFailure] stands for any other
    [Exception] raised from inside [os_win]. *)
Inductive exn : Type :=
| FishyError (msg : string)
| NotSupportedError
| IndexError
| StopIteration
| ValueError
| BackendFailure (msg : string).

(** Modelled from the spec: what an [except error.FishyError] clause catches,
    this layer's own error kinds. *)
Definition is_FishyError (ex : exn) : bool :=
  match ex with
  | FishyError _ | NotSupportedError => true
  | _ => false
  end.

(** [str(ex)], what [%(ex)s] formats. *)
Definition str_exn (ex : exn) : string :=
  match ex with
  | FishyError msg => msg
  | NotSupportedError => "Unsupported"
  | IndexError => "list index out of range"
  | StopIteration => ""
  | ValueError => "list.remove(x): x not in list"
  | BackendFailure msg => msg
  end.

Inductive result (A : Type) : Type :=
| Ok (a : A)
| Raise (ex : exn).
Arguments Ok {A} a.
Arguments Raise {A} ex.

(** ** Records read from the hypervisor *)

(** The resource setting data a boot source is associated with. *)
Record Rasd : Type := { ResourceSubType : string }.

(** A boot source setting data object, with the objects its
    [associators(wmi_association_class=_LOGICAL_IDENTITY_CLASS)] returns. *)
Record Bssd : Type := {
  BootSourceType : Z;
  associators : list Rasd
}.

(** The virtual system setting data of a VM: [BootOrder] is the generation-1
    sequence of device tokens, [BootSourceOrder] the generation-2 sequence of
    boot source paths. *)
Record Vssd : Type := {
  InstanceID : string;
  BootOrder : list Z;
  BootSourceOrder : list string
}.

(** [vssd.BootSourceOrder = tuple(new_boot_devices)]. *)
Definition set_BootSourceOrder (vssd : Vssd) (devices : list string) : Vssd :=
  {| InstanceID := InstanceID vssd;
     BootOrder := BootOrder vssd;
     BootSourceOrder := devices |}.

(** [os_win.constants], as far as the driver reads it. *)
Class Constants : Type := {
  HYPERV_VM_STATE_ENABLED : Z;
  HYPERV_VM_STATE_DISABLED : Z;
  HYPERV_VM_STATE_REBOOT : Z;
  BOOT_DEVICE_NETWORK : Z;
  BOOT_DEVICE_HARDDISK : Z;
  BOOT_DEVICE_CDROM : Z;
  VM_GEN_1 : Z;
  VM_GEN_2 : Z
}.

(** The part of [utilsfactory.get_vmutils()] the driver calls.  A query reads
    the host and returns a value or raises; a command returns or raises and
    leaves a host behind either way. *)
Class VMUtils (host : Type) : Type := {
  _DISK_DRIVE_RES_SUB_TYPE : string;
  _DVD_DRIVE_RES_SUB_TYPE : string;
  get_vm_state : string -> host -> result Z;
  set_vm_state : string -> Z -> host -> result unit * host;
  soft_shutdown_vm : string -> host -> result unit * host;
  get_vm_generation : string -> host -> result Z;
  _lookup_vm_check : string -> host -> result Vssd;
  _get_wmi_obj : string -> host -> result Bssd;
  set_boot_order : string -> list Z -> host -> result unit * host;
  _modify_virtual_system : Vssd -> host -> result unit * host
}.

(** One entry of the log per [self._vmutils] method call. *)
Inductive call : Type :=
| Call_get_vm_state (identity : string)
| Call_set_vm_state (identity : string) (vm_state : Z)
| Call_soft_shutdown_vm (identity : string)
| Call_get_vm_generation (identity : string)
| Call_lookup_vm_check (identity : string)
| Call_get_wmi_obj (path : string)
| Call_set_boot_order (identity : string) (boot_order : list Z)
| Call_modify_virtual_system (vssd : Vssd).

(** [True] for the calls that ask the hypervisor to change a power state. *)
Definition is_power_call (c : call) : bool :=
  match c with
  | Call_set_vm_state _ _ | Call_soft_shutdown_vm _ => true
  | _ => false
  end.

(** [True] for the calls that persist a boot order. *)
Definition is_persist_call (c : call) : bool :=
  match c with
  | Call_set_boot_order _ _ | Call_modify_virtual_system _ => true
  | _ => false
  end.

(** ** Python helpers *)

(** [d.get(key)] on a dict given by its items in insertion order. *)
Fixpoint dict_get {V : Type} (d : list (string * V)) (key : string) : option V :=
  match d with
  | [] => None
  | (k, v) :: items => if String.eqb k key then Some v else dict_get items key
  end.

(** [seq[0]]. *)
Definition index0 {A : Type} (seq : list A) : result A :=
  match seq with
  | [] => Raise IndexError
  | x :: _ => Ok x
  end.

(** [lst.remove(x)]: drops the first element equal to [x]; [None] stands for
    the [ValueError] raised when there is none. *)
Fixpoint list_remove (x : Z) (lst : list Z) : option (list Z) :=
  match lst with
  | [] => None
  | y :: rest =>
      if Z.eqb y x then Some rest
      else match list_remove x rest with
           | Some rest' => Some (y :: rest')
           | None => None
           end
  end.

(** [d in lst] on a list of strings. *)
Definition str_in (d : string) (lst : list string) : bool :=
  existsb (String.eqb d) lst.

(** The double quote character of the message below. *)
Definition dquote : string := String "034"%char EmptyString.

(** [part in whole] on strings, as a proposition. *)
Definition includes (part whole : string) : Prop :=
  exists pre post : string, whole = (pre ++ part ++ post)%string.

(** ** The driver *)

Section Driver.

Context {host : Type} {consts : Constants} {vmutils : VMUtils host}.

Record world : Type := World {
  backend : host;
  calls : list call
}.

(** A method body: from the world before to the outcome and the world after. *)
Definition M (A : Type) : Type := world -> result A * world.

Definition ret {A : Type} (a : A) : M A := fun w => (Ok a, w).

Definition raise {A : Type} (ex : exn) : M A := fun w => (Raise ex, w).

Definition bind {A B : Type} (m : M A) (k : A -> M B) : M B :=
  fun w =>
    match m w with
    | (Ok a, w') => k a w'
    | (Raise ex, w') => (Raise ex, w')
    end.

(** [try: body except Exception as ex: handler(ex)]. *)
Definition try_except {A : Type} (body : M A) (handler : exn -> M A) : M A :=
  fun w =>
    match body w with
    | (Ok a, w') => (Ok a, w')
    | (Raise ex, w') => handler ex w'
    end.

(** A value or exception computed without touching the host. *)
Definition lift {A : Type} (r : result A) : M A := fun w => (r, w).

(** A [vmutils] query: logged, the host is left as it is. *)
Definition query {A : Type} (c : call) (f : host -> result A) : M A :=
  fun w => (f (backend w), World (backend w) (calls w ++ [c])).

(** A [vmutils] command: logged, the host is the one the command leaves. *)
Definition command (c : call) (f : host -> result unit * host) : M unit :=
  fun w =>
    let '(r, h) := f (backend w) in (r, World h (calls w ++ [c])).

End Driver.

Arguments world host : clear implicits.
Arguments M host A : clear implicits.

Declare Scope driver_scope.
Delimit Scope driver_scope with driver.
Notation "x <- m ;; k" := (bind m (fun x => k))
  (at level 100, m at next level, right associativity) : driver_scope.
Notation "m ;;; k" := (bind m (fun _ => k))
  (at level 100, right associativity) : driver_scope.
Open Scope driver_scope.

(** ** The methods of [HyperVDriver] *)

Section Methods.

Context {host : Type} {consts : Constants} {vmutils : VMUtils host}.

Definition _BOOT_SOURCE_TYPE_DRIVE : Z := 1.
Definition _BOOT_SOURCE_TYPE_NETWORK : Z := 2.

(** The class attributes set by [initialize]. *)
Definition _VM_STATE_MAP : list (string * Z) :=
  [ ("On", HYPERV_VM_STATE_ENABLED);
    ("ForceOn", HYPERV_VM_STATE_ENABLED);
    ("ForceOff", HYPERV_VM_STATE_DISABLED);
    ("ForceRestart", HYPERV_VM_STATE_REBOOT) ].

Definition _BOOT_ORDER_MAP : list (string * Z) :=
  [ ("Pxe", BOOT_DEVICE_NETWORK);
    ("Hdd", BOOT_DEVICE_HARDDISK);
    ("Cd", BOOT_DEVICE_CDROM) ].

(** The [self._vmutils] calls, logged. *)
Definition vm_get_vm_state (identity : string) : M host Z :=
  query (Call_get_vm_state identity) (get_vm_state identity).

Definition vm_set_vm_state (identity : string) (vm_state : Z) : M host unit :=
  command (Call_set_vm_state identity vm_state) (set_vm_state identity vm_state).

Definition vm_soft_shutdown_vm (identity : string) : M host unit :=
  command (Call_soft_shutdown_vm identity) (soft_shutdown_vm identity).

Definition vm_get_vm_generation (identity : string) : M host Z :=
  query (Call_get_vm_generation identity) (get_vm_generation identity).

Definition vm_lookup_vm_check (identity : string) : M host Vssd :=
  query (Call_lookup_vm_check identity) (_lookup_vm_check identity).

Definition vm_get_wmi_obj (path : string) : M host Bssd :=
  query (Call_get_wmi_obj path) (_get_wmi_obj path).

Definition vm_set_boot_order (identity : string) (boot_order : list Z)
  : M host unit :=
  command (Call_set_boot_order identity boot_order)
          (set_boot_order identity boot_order).

Definition vm_modify_virtual_system (vssd : Vssd) : M host unit :=
  command (Call_modify_virtual_system vssd) (_modify_virtual_system vssd).

(** [get_power_state]: the value returned is a [str] on every path; it is
    typed as the documented "[str] or [None]". *)
Definition get_power_state (identity : string) : M host (option string) :=
  state <- vm_get_vm_state identity ;;
  ret (Some (if Z.eqb state HYPERV_VM_STATE_ENABLED then "On" else "Off")).

(** The message of the [FishyError] raised by [set_power_state]. *)
Definition set_power_state_message (state identity : string) (ex : exn)
  : string :=
  ("Failed to set the power state " ++ dquote ++ state ++ dquote
   ++ " for Hyper-V VM " ++ dquote ++ identity ++ dquote ++ ": "
   ++ str_exn ex)%string.

(** The [try] block of [set_power_state]; [if vm_state:] is false for [None]
    and for [0]. *)
Definition set_power_state_try (identity state : string) : M host unit :=
  let otherwise : M host unit :=
    if String.eqb state "GracefulShutdown"
    then vm_soft_shutdown_vm identity
    else raise NotSupportedError in
  match dict_get _VM_STATE_MAP state with
  | Some vm_state =>
      if Z.eqb vm_state 0 then otherwise
      else vm_set_vm_state identity vm_state
  | None => otherwise
  end.

Definition set_power_state (identity state : string) : M host unit :=
  try_except (set_power_state_try identity state)
    (fun ex =>
       if is_FishyError ex then raise ex
       else raise (FishyError (set_power_state_message state identity ex))).

(** What [_get_boot_device_gen2] answers for the first boot source. *)
Definition boot_source_class (bssd : Bssd) : M host (option string) :=
  if Z.eqb (BootSourceType bssd) _BOOT_SOURCE_TYPE_NETWORK then ret (Some "Pxe")
  else if Z.eqb (BootSourceType bssd) _BOOT_SOURCE_TYPE_DRIVE then
    rasd <- lift (index0 (associators bssd)) ;;
    if String.eqb (ResourceSubType rasd) _DISK_DRIVE_RES_SUB_TYPE
    then ret (Some "Hdd")
    else if String.eqb (ResourceSubType rasd) _DVD_DRIVE_RES_SUB_TYPE
    then ret (Some "Cd")
    else ret None
  else ret None.

Definition _get_boot_device_gen2 (identity : string) : M host (option string) :=
  vssd <- vm_lookup_vm_check identity ;;
  let boot_devices := BootSourceOrder vssd in
  match boot_devices with
  | [] => ret None
  | first :: _ =>
      bssd <- vm_get_wmi_obj first ;;
      boot_source_class bssd
  end.

(** [next(k for (k, v) in items if v == boot_order[0])]: the condition, and
    with it [boot_order[0]], is evaluated once per item drawn. *)
Fixpoint next_key (items : list (string * Z)) (boot_order : list Z)
  : result string :=
  match items with
  | [] => Raise StopIteration
  | (k, v) :: rest =>
      match index0 boot_order with
      | Raise ex => Raise ex
      | Ok first => if Z.eqb v first then Ok k else next_key rest boot_order
      end
  end.

Definition _get_boot_device_gen1 (identity : string) : M host (option string) :=
  vssd <- vm_lookup_vm_check identity ;;
  let boot_order := BootOrder vssd in
  k <- lift (next_key _BOOT_ORDER_MAP boot_order) ;;
  ret (Some k).

Definition get_boot_device (identity : string) : M host (option string) :=
  generation <- vm_get_vm_generation identity ;;
  if Z.eqb generation VM_GEN_1 then _get_boot_device_gen1 identity
  else _get_boot_device_gen2 identity.

(** [_set_boot_device_gen1]: [boot_device] is [None] for an unmapped
    [boot_source]; the boot order is a list of integers, so
    [boot_order.remove(None)] finds nothing and raises. *)
Definition _set_boot_device_gen1 (identity boot_source : string) : M host unit :=
  vssd <- vm_lookup_vm_check identity ;;
  let boot_order := BootOrder vssd in
  match dict_get _BOOT_ORDER_MAP boot_source with
  | None => raise ValueError
  | Some boot_device =>
      match list_remove boot_device boot_order with
      | None => raise ValueError
      | Some removed => vm_set_boot_order identity (boot_device :: removed)
      end
  end.

(** The body of the [for] loop of [_set_boot_device_gen2]. *)
Definition gen2_loop_body (boot_source boot_device : string)
    (new_boot_devices : list string) : M host (list string) :=
  bssd <- vm_get_wmi_obj boot_device ;;
  if String.eqb boot_source "Pxe"
     && Z.eqb (BootSourceType bssd) _BOOT_SOURCE_TYPE_NETWORK
  then ret (new_boot_devices ++ [boot_device])
  else
    rasd <- lift (index0 (associators bssd)) ;;
    if String.eqb boot_source "Hdd"
       && String.eqb (ResourceSubType rasd) _DISK_DRIVE_RES_SUB_TYPE
       || String.eqb boot_source "Cd"
          && String.eqb (ResourceSubType rasd) _DVD_DRIVE_RES_SUB_TYPE
    then ret (new_boot_devices ++ [boot_device])
    else ret new_boot_devices.

Fixpoint for_each {A S : Type} (seq : list A) (body : A -> S -> M host S)
    (acc : S) : M host S :=
  match seq with
  | [] => ret acc
  | x :: rest => acc' <- body x acc ;; for_each rest body acc'
  end.

Definition _set_boot_device_gen2 (identity boot_source : string) : M host unit :=
  vssd <- vm_lookup_vm_check identity ;;
  let old_boot_devices := BootSourceOrder vssd in
  new_boot_devices <- for_each old_boot_devices (gen2_loop_body boot_source) [] ;;
  let new_boot_devices :=
    new_boot_devices
    ++ List.filter (fun d => negb (str_in d new_boot_devices)) old_boot_devices in
  vm_modify_virtual_system (set_BootSourceOrder vssd new_boot_devices).

Definition set_boot_device (identity boot_source : string) : M host unit :=
  generation <- vm_get_vm_generation identity ;;
  if Z.eqb generation VM_GEN_1 then _set_boot_device_gen1 identity boot_source
  else _set_boot_device_gen2 identity boot_source.

Definition get_boot_mode (identity : string) : M host (option string) :=
  vm_gen <- vm_get_vm_generation identity ;;
  ret (Some (if Z.eqb vm_gen VM_GEN_2 then "UEFI" else "Legacy")).

(** [set_boot_mode]: the body is [pass]. *)
Definition set_boot_mode (identity boot_mode : string) : M host unit :=
  ret tt.

End Methods.

(** ** What persisting a boot order means *)

(** The driver holds no state of its own: what [set_boot_order] and
    [_modify_virtual_system] store is what a later [_lookup_vm_check] reads
    back.  These are the properties of a hypervisor host the read-after-write
    statements below rest on; neither call changes a VM's generation, and
    rewriting a VM's settings leaves the boot source objects alone. *)
Class BootStore (host : Type) {vmutils : VMUtils host} : Prop := {
  set_boot_order_stored :
    forall identity boot_order h h' vssd,
      set_boot_order identity boot_order h = (Ok tt, h') ->
      _lookup_vm_check identity h = Ok vssd ->
      _lookup_vm_check identity h' =
        Ok {| InstanceID := InstanceID vssd;
              BootOrder := boot_order;
              BootSourceOrder := BootSourceOrder vssd |};
  set_boot_order_generation :
    forall identity boot_order h h' identity',
      set_boot_order identity boot_order h = (Ok tt, h') ->
      get_vm_generation identity' h' = get_vm_generation identity' h;
  modify_stored :
    forall vssd h h' identity vssd0,
      _modify_virtual_system vssd h = (Ok tt, h') ->
      _lookup_vm_check identity h = Ok vssd0 ->
      InstanceID vssd0 = InstanceID vssd ->
      _lookup_vm_check identity h' = Ok vssd;
  modify_generation :
    forall vssd h h' identity,
      _modify_virtual_system vssd h = (Ok tt, h') ->
      get_vm_generation identity h' = get_vm_generation identity h;
  modify_wmi_obj :
    forall vssd h h' path,
      _modify_virtual_system vssd h = (Ok tt, h') ->
      _get_wmi_obj path h' = _get_wmi_obj path h
}.

(** ** The selection test of the generation-2 loop *)

Section Selection.

Context {host : Type} {vmutils : VMUtils host}.

(** Whether the loop of [_set_boot_device_gen2] appends a boot source with
    this record, read off the two [if]s of its body. *)
Definition record_selected (boot_source : string) (bssd : Bssd) : bool :=
  String.eqb boot_source "Pxe"
  && Z.eqb (BootSourceType bssd) _BOOT_SOURCE_TYPE_NETWORK
  || match associators bssd with
     | rasd :: _ =>
         String.eqb boot_source "Hdd"
         && String.eqb (ResourceSubType rasd) _DISK_DRIVE_RES_SUB_TYPE
         || String.eqb boot_source "Cd"
            && String.eqb (ResourceSubType rasd) _DVD_DRIVE_RES_SUB_TYPE
     | [] => false
     end.

Definition selected (boot_source : string) (h : host) (boot_device : string)
  : bool :=
  match _get_wmi_obj boot_device h with
  | Ok bssd => record_selected boot_source bssd
  | Raise _ => false
  end.

(** The loop body runs through for this boot source: its object is found
    and, unless it is taken as a network source, it has an associated
    resource for [associators(...)[0]] to return. *)
Definition resolvable (boot_source : string) (h : host) (boot_device : string)
  : Prop :=
  exists bssd,
    _get_wmi_obj boot_device h = Ok bssd
    /\ (String.eqb boot_source "Pxe"
        && Z.eqb (BootSourceType bssd) _BOOT_SOURCE_TYPE_NETWORK = true
        \/ associators bssd <> []).

(** A boot source record as Hyper-V hands them out: a drive, or a network
    source whose associated resource is neither a disk nor a DVD drive. *)
Definition well_formed (bssd : Bssd) : Prop :=
  match associators bssd with
  | [] => False
  | rasd :: _ =>
      BootSourceType bssd = _BOOT_SOURCE_TYPE_DRIVE
      \/ BootSourceType bssd = _BOOT_SOURCE_TYPE_NETWORK
         /\ ResourceSubType rasd <> _DISK_DRIVE_RES_SUB_TYPE
         /\ ResourceSubType rasd <> _DVD_DRIVE_RES_SUB_TYPE
  end.

(** The stable partition of a boot source order by the selection test. *)
Definition stable_partition (boot_source : string) (h : host)
    (old_boot_devices : list string) : list string :=
  List.filter (selected boot_source h) old_boot_devices
  ++ List.filter (fun d => negb (selected boot_source h d)) old_boot_devices.

End Selection.

(** ** An in-memory hypervisor host *)

Module MemHost.

(** A sample assignment of the [os_win] constants. *)
Definition constants : Constants := {|
  HYPERV_VM_STATE_ENABLED := 2;
  HYPERV_VM_STATE_DISABLED := 3;
  HYPERV_VM_STATE_REBOOT := 11;
  BOOT_DEVICE_NETWORK := 3;
  BOOT_DEVICE_HARDDISK := 2;
  BOOT_DEVICE_CDROM := 1;
  VM_GEN_1 := 1;
  VM_GEN_2 := 2
|}.

Definition HYPERV_VM_STATE_PAUSED : Z := 9.
Definition BOOT_DEVICE_FLOPPY : Z := 0.

Record vm : Type := {
  EnabledState : Z;
  generation : Z;
  boot_order : list Z;
  boot_source_order : list string
}.

Record t : Type := Host {
  vms : gmap string vm;
  wmi : gmap string Bssd
}.

Definition not_found (identity : string) : exn :=
  BackendFailure ("VM not found: " ++ identity)%string.

Definition with_vm {A : Type} (identity : string) (h : t) (f : vm -> A)
  : result A :=
  match vms h !! identity with
  | Some v => Ok (f v)
  | None => Raise (not_found identity)
  end.

Definition update_vm (identity : string) (h : t) (f : vm -> vm)
  : result unit * t :=
  match vms h !! identity with
  | Some v => (Ok tt, Host (<[identity := f v]> (vms h)) (wmi h))
  | None => (Raise (not_found identity), h)
  end.

Definition vssd_of (identity : string) (v : vm) : Vssd :=
  {| InstanceID := identity;
     BootOrder := boot_order v;
     BootSourceOrder := boot_source_order v |}.

Definition vmutils : VMUtils t := {|
  _DISK_DRIVE_RES_SUB_TYPE := "Microsoft:Hyper-V:Synthetic Disk Drive";
  _DVD_DRIVE_RES_SUB_TYPE := "Microsoft:Hyper-V:Synthetic DVD Drive";
  get_vm_state := fun identity h => with_vm identity h EnabledState;
  set_vm_state := fun identity vm_state h =>
    update_vm identity h (fun v =>
      {| EnabledState := if Z.eqb vm_state 11 then 2 else vm_state;
         generation := generation v;
         boot_order := boot_order v;
         boot_source_order := boot_source_order v |});
  soft_shutdown_vm := fun identity h =>
    update_vm identity h (fun v =>
      {| EnabledState := 3;
         generation := generation v;
         boot_order := boot_order v;
         boot_source_order := boot_source_order v |});
  get_vm_generation := fun identity h => with_vm identity h generation;
  _lookup_vm_check := fun identity h => with_vm identity h (vssd_of identity);
  _get_wmi_obj := fun path h =>
    match wmi h !! path with
    | Some bssd => Ok bssd
    | None => Raise (BackendFailure ("object not found: " ++ path)%string)
    end;
  set_boot_order := fun identity order h =>
    update_vm identity h (fun v =>
      {| EnabledState := EnabledState v;
         generation := generation v;
         boot_order := order;
         boot_source_order := boot_source_order v |});
  _modify_virtual_system := fun vssd h =>
    update_vm (InstanceID vssd) h (fun v =>
      {| EnabledState := EnabledState v;
         generation := generation v;
         boot_order := BootOrder vssd;
         boot_source_order := BootSourceOrder vssd |})
|}.

(** A host with a generation-1 VM, a generation-2 VM with a network card, a
    disk and a DVD drive, and a paused VM. *)
Definition net0 : Bssd :=
  {| BootSourceType := 2;
     associators := [ {| ResourceSubType := "Microsoft:Hyper-V:Synthetic Ethernet Port" |} ] |}.
Definition disk0 : Bssd :=
  {| BootSourceType := 1;
     associators := [ {| ResourceSubType := "Microsoft:Hyper-V:Synthetic Disk Drive" |} ] |}.
Definition dvd0 : Bssd :=
  {| BootSourceType := 1;
     associators := [ {| ResourceSubType := "Microsoft:Hyper-V:Synthetic DVD Drive" |} ] |}.

Definition gen1_vm : vm :=
  {| EnabledState := 3; generation := 1;
     boot_order := [1; 2; 3; 0]; boot_source_order := [] |}.
Definition gen2_vm : vm :=
  {| EnabledState := 2; generation := 2;
     boot_order := []; boot_source_order := ["net0"; "disk0"; "dvd0"] |}.
Definition paused_vm : vm :=
  {| EnabledState := HYPERV_VM_STATE_PAUSED; generation := 2;
     boot_order := []; boot_source_order := [] |}.
Definition floppy_first_vm : vm :=
  {| EnabledState := 3; generation := 1;
     boot_order := [0; 1; 2; 3]; boot_source_order := [] |}.
Definition empty_order_vm : vm :=
  {| EnabledState := 3; generation := 1;
     boot_order := []; boot_source_order := [] |}.

Definition sample : t :=
  {| vms := <["vm1" := gen1_vm]> (<["vm2" := gen2_vm]> (<["vm3" := paused_vm]>
            (<["vm4" := floppy_first_vm]> (<["vm5" := empty_order_vm]> ∅))));
     wmi := <["net0" := net0]> (<["disk0" := disk0]> (<["dvd0" := dvd0]> ∅)) |}.

Definition start : world t := World sample [].

End MemHost.

(** ** The operations the hypervisor does not support *)

Section Unsupported.

Context {host : Type}.

(** [get_bios], [set_bios], [reset_bios], [get_boot_image] and
    [set_boot_image] have the one body [raise error.NotSupportedError()]. *)
Definition get_bios (identity : string) : M host (list (string * string)) :=
  raise NotSupportedError.

Definition set_bios (identity : string) (attributes : list (string * string))
  : M host unit :=
  raise NotSupportedError.

Definition reset_bios (identity : string) : M host unit :=
  raise NotSupportedError.

Definition get_boot_image (identity device : string)
  : M host (string * bool * bool) :=
  raise NotSupportedError.

Definition set_boot_image (identity device : string)
    (boot_image : option string) (write_protected : bool) : M host unit :=
  raise NotSupportedError.

(** A method body that only reads: it leaves the host as it found it and
    logs neither a power call nor a call that persists a boot order. *)
Definition read_only {A : Type} (m : M host A) : Prop :=
  forall w,
    backend (snd (m w)) = backend w
    /\ List.filter is_power_call (calls (snd (m w)))
       = List.filter is_power_call (calls w)
    /\ List.filter is_persist_call (calls (snd (m w)))
       = List.filter is_persist_call (calls w).

End Unsupported.

(** ** Inventory *)

(** A network adapter of a VM, as [_get_vm_nics] returns them. *)
Record Nic : Type := {
  ElementName : string;
  Address : string
}.

(** The [vmutils] queries behind the inventory methods.  A summary is a dict
    whose values are integers or [None]. *)
Class VMUtilsInventory (host : Type) : Type := {
  list_instances : host -> result (list string);
  get_vm_id : string -> host -> result string;
  get_vm_summary_info : string -> host -> result (gmap string (option Z));
  _get_vm_nics : string -> host -> result (list Nic)
}.

Module Inventory.

Section Methods.

Context {host : Type} {inventory : VMUtilsInventory host}.

(** The inventory methods make one query each and change nothing: they are
    functions of the host. *)
Definition driver : string := "<hyperv>".

Definition systems (h : host) : result (list string) := list_instances h.

Definition uuid (identity : string) (h : host) : result string :=
  get_vm_id identity h.

Definition name (identity : string) (h : host) : result string := Ok identity.

(** [get_vm_summary_info(identity).get(key)]. *)
Definition summary_get (identity key : string) (h : host)
  : result (option Z) :=
  match get_vm_summary_info identity h with
  | Ok info =>
      Ok (match info !! key with
          | Some value => value
          | None => None
          end)
  | Raise ex => Raise ex
  end.

Definition get_total_memory (identity : string) (h : host)
  : result (option Z) :=
  summary_get identity "MemoryUsage" h.

Definition get_total_cpus (identity : string) (h : host)
  : result (option Z) :=
  summary_get identity "NumberOfProcessors" h.

(** [{"id": n.ElementName, "mac": n.Address}]. *)
Definition nic_dict (n : Nic) : gmap string string :=
  <["mac" := Address n]> (<["id" := ElementName n]> ∅).

Definition get_nics (identity : string) (h : host)
  : result (list (gmap string string)) :=
  match _get_vm_nics identity h with
  | Ok nics => Ok (map nic_dict nics)
  | Raise ex => Raise ex
  end.

Definition get_simple_storage_collection (identity : string) (h : host)
  : result (gmap string string) :=
  Ok ∅.

(** [find_or_create_storage_volume]: the body is [pass]. *)
Definition find_or_create_storage_volume (data : gmap string string) (h : host)
  : result (option string) :=
  Ok None.

End Methods.

End Inventory.

(** ** More hosts to run the driver on *)

Module Fixtures.

Definition refused : exn := BackendFailure "access denied".

(** The in-memory host behind a connection that may read but not write
    boot orders. *)
Definition read_only_vmutils : VMUtils MemHost.t := {|
  _DISK_DRIVE_RES_SUB_TYPE := @_DISK_DRIVE_RES_SUB_TYPE _ MemHost.vmutils;
  _DVD_DRIVE_RES_SUB_TYPE := @_DVD_DRIVE_RES_SUB_TYPE _ MemHost.vmutils;
  get_vm_state := @get_vm_state _ MemHost.vmutils;
  set_vm_state := @set_vm_state _ MemHost.vmutils;
  soft_shutdown_vm := @soft_shutdown_vm _ MemHost.vmutils;
  get_vm_generation := @get_vm_generation _ MemHost.vmutils;
  _lookup_vm_check := @_lookup_vm_check _ MemHost.vmutils;
  _get_wmi_obj := @_get_wmi_obj _ MemHost.vmutils;
  set_boot_order := fun _ _ h => (Raise refused, h);
  _modify_virtual_system := fun _ h => (Raise refused, h)
|}.

(** A firmware file entry, associated with no device, and a drive entry
    whose device is gone. *)
Definition file0 : Bssd := {| BootSourceType := 3; associators := [] |}.
Definition bare0 : Bssd := {| BootSourceType := 1; associators := [] |}.

Definition file_entry_vm : MemHost.vm :=
  {| MemHost.EnabledState := 2; MemHost.generation := 2;
     MemHost.boot_order := [];
     MemHost.boot_source_order := ["disk0"; "file0"; "net0"] |}.
Definition bare_first_vm : MemHost.vm :=
  {| MemHost.EnabledState := 2; MemHost.generation := 2;
     MemHost.boot_order := [];
     MemHost.boot_source_order := ["bare0"; "net0"] |}.
Definition two_disks_vm : MemHost.vm :=
  {| MemHost.EnabledState := 2; MemHost.generation := 2;
     MemHost.boot_order := [];
     MemHost.boot_source_order := ["disk0"; "net0"; "disk1"] |}.
Definition repeated_token_vm : MemHost.vm :=
  {| MemHost.EnabledState := 3; MemHost.generation := 1;
     MemHost.boot_order := [1; 3; 2; 3]; MemHost.boot_source_order := [] |}.
Definition no_network_vm : MemHost.vm :=
  {| MemHost.EnabledState := 3; MemHost.generation := 1;
     MemHost.boot_order := [1; 2]; MemHost.boot_source_order := [] |}.

Definition sample : MemHost.t :=
  {| MemHost.vms :=
       <["vm6" := file_entry_vm]> (<["vm7" := bare_first_vm]>
       (<["vm8" := two_disks_vm]> (<["vm9" := repeated_token_vm]>
       (<["vm10" := no_network_vm]> ∅))));
     MemHost.wmi :=
       <["file0" := file0]> (<["bare0" := bare0]>
       (<["disk1" := MemHost.disk0]> (MemHost.wmi MemHost.sample))) |}.

Definition start : world MemHost.t := World sample [].

(** An inventory: per VM the summary dict and the adapters. *)
Record inventory_host : Type := {
  instances : list string;
  summaries : gmap string (gmap string (option Z));
  adapters : gmap string (list Nic)
}.

Definition inventory : VMUtilsInventory inventory_host := {|
  list_instances := fun h => Ok (instances h);
  get_vm_id := fun identity h =>
    if str_in identity (instances h) then Ok ("id-of-" ++ identity)%string
    else Raise (MemHost.not_found identity);
  get_vm_summary_info := fun identity h =>
    match summaries h !! identity with
    | Some info => Ok info
    | None => Raise (MemHost.not_found identity)
    end;
  _get_vm_nics := fun identity h =>
    match adapters h !! identity with
    | Some nics => Ok nics
    | None => Raise (MemHost.not_found identity)
    end
|}.

Definition inventory_sample : inventory_host :=
  {| instances := ["vm1"; "vm2"];
     summaries :=
       <["vm1" := <["MemoryUsage" := Some 4096]>
                    (<["NumberOfProcessors" := Some 2]> ∅)]>
       (<["vm2" := <["NumberOfProcessors" := Some 4]> ∅]>
       (<["vm3" := <["MemoryUsage" := None]>
                    (<["NumberOfProcessors" := Some 1]> ∅)]> ∅));
     adapters :=
       <["vm1" := [ {| ElementName := "nic0"; Address := "00155D010203" |};
                    {| ElementName := "nic1"; Address := "00155D010204" |} ]]>
       (<["vm2" := []]> ∅) |}.

End Fixtures.

(** A host whose VM "vm11" boots from a network card, then from a firmware
    entry that is associated with a disk drive, then from a disk. *)
Module OddFixtures.

Definition odd0 : Bssd :=
  {| BootSourceType := 3;
     associators :=
       [ {| ResourceSubType := "Microsoft:Hyper-V:Synthetic Disk Drive" |} ] |}.

Definition odd_vm : MemHost.vm :=
  {| MemHost.EnabledState := 2; MemHost.generation := 2;
     MemHost.boot_order := [];
     MemHost.boot_source_order := ["net0"; "odd0"; "disk0"] |}.

Definition sample : MemHost.t :=
  {| MemHost.vms := <["vm11" := odd_vm]> ∅;
     MemHost.wmi := <["odd0" := odd0]> (MemHost.wmi MemHost.sample) |}.

Definition start : world MemHost.t := World sample [].

End OddFixtures.

(** * Properties *)

Section Correctness.

Context {host : Type} {consts : Constants} {vmutils : VMUtils host}.

Implicit Types (w : world host) (identity boot_source state : string).

(** ** Stepping through a method body *)

Lemma bind_ok {A B : Type} (m : M host A) (k : A -> M host B) w a w' :
  m w = (Ok a, w') -> bind m k w = k a w'.
Proof. intros Hm. unfold bind. now rewrite Hm. Qed.

Lemma bind_raise {A B : Type} (m : M host A) (k : A -> M host B) w ex w' :
  m w = (Raise ex, w') -> bind m k w = (Raise ex, w').
Proof. intros Hm. unfold bind. now rewrite Hm. Qed.

Lemma generation_step identity w generation :
  get_vm_generation identity (backend w) = Ok generation ->
  vm_get_vm_generation identity w =
    (Ok generation,
     World (backend w) (calls w ++ [Call_get_vm_generation identity])).
Proof. intros Hg. unfold vm_get_vm_generation, query. now rewrite Hg. Qed.

Lemma lookup_step identity w vssd :
  _lookup_vm_check identity (backend w) = Ok vssd ->
  vm_lookup_vm_check identity w =
    (Ok vssd, World (backend w) (calls w ++ [Call_lookup_vm_check identity])).
Proof. intros Hl. unfold vm_lookup_vm_check, query. now rewrite Hl. Qed.

Lemma wmi_obj_step path w bssd :
  _get_wmi_obj path (backend w) = Ok bssd ->
  vm_get_wmi_obj path w =
    (Ok bssd, World (backend w) (calls w ++ [Call_get_wmi_obj path])).
Proof. intros Hl. unfold vm_get_wmi_obj, query. now rewrite Hl. Qed.

(** The dispatch of [get_boot_device] and [set_boot_device] on the
    generation. *)
Lemma get_boot_device_on_gen1 identity w :
  get_vm_generation identity (backend w) = Ok VM_GEN_1 ->
  get_boot_device identity w =
    _get_boot_device_gen1 identity
      (World (backend w) (calls w ++ [Call_get_vm_generation identity])).
Proof.
  intros Hg. unfold get_boot_device.
  rewrite (bind_ok _ _ _ _ _ (generation_step _ _ _ Hg)).
  now rewrite Z.eqb_refl.
Qed.

Lemma get_boot_device_on_gen2 identity w generation :
  get_vm_generation identity (backend w) = Ok generation ->
  generation <> VM_GEN_1 ->
  get_boot_device identity w =
    _get_boot_device_gen2 identity
      (World (backend w) (calls w ++ [Call_get_vm_generation identity])).
Proof.
  intros Hg Hne. unfold get_boot_device.
  rewrite (bind_ok _ _ _ _ _ (generation_step _ _ _ Hg)).
  apply Z.eqb_neq in Hne. now rewrite Hne.
Qed.

Lemma set_boot_device_on_gen1 identity boot_source w :
  get_vm_generation identity (backend w) = Ok VM_GEN_1 ->
  set_boot_device identity boot_source w =
    _set_boot_device_gen1 identity boot_source
      (World (backend w) (calls w ++ [Call_get_vm_generation identity])).
Proof.
  intros Hg. unfold set_boot_device.
  rewrite (bind_ok _ _ _ _ _ (generation_step _ _ _ Hg)).
  now rewrite Z.eqb_refl.
Qed.

Lemma set_boot_device_on_gen2 identity boot_source w generation :
  get_vm_generation identity (backend w) = Ok generation ->
  generation <> VM_GEN_1 ->
  set_boot_device identity boot_source w =
    _set_boot_device_gen2 identity boot_source
      (World (backend w) (calls w ++ [Call_get_vm_generation identity])).
Proof.
  intros Hg Hne. unfold set_boot_device.
  rewrite (bind_ok _ _ _ _ _ (generation_step _ _ _ Hg)).
  apply Z.eqb_neq in Hne. now rewrite Hne.
Qed.

(** ** Boot mode *)

(** C9: for a VM whose generation the hypervisor reports, [get_boot_mode]
    returns "UEFI" exactly when that generation is [VM_GEN_2] and "Legacy"
    exactly when it is not; [set_boot_mode] returns without raising and
    without touching the host or calling it, whatever the identity and the
    requested mode. *)
Theorem get_boot_mode_by_generation identity w vm_gen :
  get_vm_generation identity (backend w) = Ok vm_gen ->
  (fst (get_boot_mode identity w) = Ok (Some "UEFI") <-> vm_gen = VM_GEN_2)
  /\ (fst (get_boot_mode identity w) = Ok (Some "Legacy")
      <-> vm_gen <> VM_GEN_2)
  /\ (forall identity' boot_mode w',
         set_boot_mode identity' boot_mode w' = (Ok tt, w')).
Proof.
  intros Hg. unfold get_boot_mode.
  rewrite (bind_ok _ _ _ _ _ (generation_step _ _ _ Hg)). unfold ret. simpl.
  destruct (Z.eqb_spec vm_gen VM_GEN_2) as [Heq | Hne].
  - repeat split; auto; try discriminate. intros Hne. now elim Hne.
  - repeat split; auto; try discriminate. intros Heq. now elim Hne.
Qed.

(** ** Power state *)

(** C6: whatever state other than [HYPERV_VM_STATE_ENABLED] the hypervisor
    reports for a VM, also one that is not [HYPERV_VM_STATE_DISABLED],
    [get_power_state] answers "Off": it never answers [None]. *)
Theorem get_power_state_not_enabled_is_off identity w vm_state :
  get_vm_state identity (backend w) = Ok vm_state ->
  vm_state <> HYPERV_VM_STATE_ENABLED ->
  fst (get_power_state identity w) = Ok (Some "Off")
  /\ fst (get_power_state identity w) <> Ok None.
Proof.
  intros Hs Hne. unfold get_power_state, vm_get_vm_state, bind, query, ret.
  rewrite Hs. simpl. apply Z.eqb_neq in Hne. rewrite Hne.
  split; [reflexivity | discriminate].
Qed.

(** ** Reading the boot device *)

Lemma next_key_empty_order (items : list (string * Z)) :
  items <> [] -> next_key items [] = Raise IndexError.
Proof. destruct items as [| [k v] rest]; [congruence | reflexivity]. Qed.

Lemma next_key_unmapped (items : list (string * Z)) (first : Z) (rest : list Z) :
  ~ In first (map snd items) ->
  next_key items (first :: rest) = Raise StopIteration.
Proof.
  induction items as [| [k v] items IH]; intros Hnot; simpl.
  - reflexivity.
  - simpl in Hnot. destruct (Z.eqb_spec v first) as [Heq | Hne].
    + elim Hnot. now left.
    + apply IH. intros Hin. apply Hnot. now right.
Qed.

(** C7: on a generation-1 VM whose first boot-order entry is none of the
    three tokens of [_BOOT_ORDER_MAP], [get_boot_device] raises
    [StopIteration]: it does not return [None]. *)
Theorem get_boot_device_gen1_unmapped_first identity w vssd first rest :
  get_vm_generation identity (backend w) = Ok VM_GEN_1 ->
  _lookup_vm_check identity (backend w) = Ok vssd ->
  BootOrder vssd = first :: rest ->
  ~ In first (map snd _BOOT_ORDER_MAP) ->
  fst (get_boot_device identity w) = Raise StopIteration.
Proof.
  intros Hg Hl Horder Hnot.
  rewrite (get_boot_device_on_gen1 _ _ Hg). unfold _get_boot_device_gen1.
  erewrite bind_ok by (apply lookup_step; exact Hl).
  rewrite Horder, (next_key_unmapped _ _ _ Hnot). reflexivity.
Qed.

(** C10: with an empty boot order, [get_boot_device] raises [IndexError] on
    a generation-1 VM and returns [None] on a VM of any other generation. *)
Theorem get_boot_device_empty_order identity w generation vssd :
  get_vm_generation identity (backend w) = Ok generation ->
  _lookup_vm_check identity (backend w) = Ok vssd ->
  (generation = VM_GEN_1 -> BootOrder vssd = [] ->
   fst (get_boot_device identity w) = Raise IndexError)
  /\ (generation <> VM_GEN_1 -> BootSourceOrder vssd = [] ->
      fst (get_boot_device identity w) = Ok None).
Proof.
  intros Hg Hl. split.
  - intros -> Hempty.
    rewrite (get_boot_device_on_gen1 _ _ Hg). unfold _get_boot_device_gen1.
    erewrite bind_ok by (apply lookup_step; exact Hl).
    rewrite Hempty. reflexivity.
  - intros Hne Hempty.
    rewrite (get_boot_device_on_gen2 _ _ _ Hg Hne). unfold _get_boot_device_gen2.
    erewrite bind_ok by (apply lookup_step; exact Hl).
    rewrite Hempty. reflexivity.
Qed.

(** ** Setting the boot device of a generation-1 VM to an unmapped class *)

(** C8: on a generation-1 VM, [set_boot_device] with a boot source that is
    not a key of [_BOOT_ORDER_MAP] raises [ValueError], the invalid-argument
    exception of [list.remove]; the host is left as it was, the VM's settings
    read back unchanged, and the log gains no [set_boot_order] call. *)
Theorem set_boot_device_gen1_unmapped_class identity boot_source w vssd :
  get_vm_generation identity (backend w) = Ok VM_GEN_1 ->
  _lookup_vm_check identity (backend w) = Ok vssd ->
  dict_get _BOOT_ORDER_MAP boot_source = None ->
  fst (set_boot_device identity boot_source w) = Raise ValueError
  /\ backend (snd (set_boot_device identity boot_source w)) = backend w
  /\ _lookup_vm_check identity
       (backend (snd (set_boot_device identity boot_source w))) = Ok vssd
  /\ List.filter is_persist_call
       (calls (snd (set_boot_device identity boot_source w)))
     = List.filter is_persist_call (calls w).
Proof.
  intros Hg Hl Hnone.
  rewrite (set_boot_device_on_gen1 _ _ _ Hg). unfold _set_boot_device_gen1.
  erewrite bind_ok by (apply lookup_step; exact Hl).
  rewrite Hnone. unfold raise. simpl.
  repeat split; auto.
  rewrite !List.filter_app. simpl. now rewrite !app_nil_r.
Qed.

(** ** Setting the power state *)

Lemma string_app_assoc (a b c : string) :
  ((a ++ b) ++ c)%string = (a ++ b ++ c)%string.
Proof.
  induction a as [| ch a IH]; [reflexivity |].
  change (String ch ((a ++ b) ++ c) = String ch (a ++ b ++ c))%string.
  now rewrite IH.
Qed.

Lemma message_includes_state state identity ex :
  includes state (set_power_state_message state identity ex).
Proof.
  exists ("Failed to set the power state " ++ dquote)%string.
  eexists. unfold set_power_state_message.
  rewrite !string_app_assoc. reflexivity.
Qed.

Lemma message_includes_identity state identity ex :
  includes identity (set_power_state_message state identity ex).
Proof.
  exists ("Failed to set the power state " ++ dquote ++ state ++ dquote
          ++ " for Hyper-V VM " ++ dquote)%string.
  eexists. unfold set_power_state_message.
  rewrite !string_app_assoc. reflexivity.
Qed.

(** The [try] block makes at most one call, a power call. *)
Lemma set_power_state_try_calls identity state w :
  calls (snd (set_power_state_try identity state w)) = calls w
  \/ exists c, is_power_call c = true
       /\ calls (snd (set_power_state_try identity state w)) = calls w ++ [c].
Proof.
  unfold set_power_state_try, vm_set_vm_state, vm_soft_shutdown_vm, command,
    raise.
  destruct (dict_get _VM_STATE_MAP state) as [vm_state |];
    [destruct (Z.eqb vm_state 0) |];
    try destruct (String.eqb state "GracefulShutdown");
    try (left; reflexivity);
    right; eexists;
    match goal with
    | |- context [soft_shutdown_vm ?i ?h] => destruct (soft_shutdown_vm i h)
    | |- context [set_vm_state ?i ?s ?h] => destruct (set_vm_state i s h)
    end;
    (split; [| reflexivity]); reflexivity.
Qed.

(** The handlers of [set_power_state] make no call and leave the host. *)
Lemma set_power_state_world identity state w :
  snd (set_power_state identity state w)
  = snd (set_power_state_try identity state w).
Proof.
  unfold set_power_state, try_except.
  destruct (set_power_state_try identity state w) as [[a | ex] w']; simpl.
  - reflexivity.
  - unfold raise. now destruct (is_FishyError ex).
Qed.

(** Nothing is retried: one [set_power_state] is at most one call. *)
Lemma set_power_state_calls_at_most_once identity state w :
  (length (calls (snd (set_power_state identity state w)))
   <= length (calls w) + 1)%nat.
Proof.
  rewrite set_power_state_world.
  destruct (set_power_state_try_calls identity state w) as [-> | [c [_ ->]]].
  - lia.
  - rewrite length_app. simpl. lia.
Qed.

(** C4: "GracefulShutdown" is not a key of [_VM_STATE_MAP]; for it
    [set_power_state] makes exactly one call, [soft_shutdown_vm], leaves the
    host that call leaves, and returns when that call returns.  For "Nmi" it
    raises [NotSupportedError] without calling the hypervisor at all. *)
Theorem set_power_state_graceful_shutdown_and_nmi identity w :
  dict_get _VM_STATE_MAP "GracefulShutdown" = None
  /\ calls (snd (set_power_state identity "GracefulShutdown" w))
     = calls w ++ [Call_soft_shutdown_vm identity]
  /\ backend (snd (set_power_state identity "GracefulShutdown" w))
     = snd (soft_shutdown_vm identity (backend w))
  /\ (fst (soft_shutdown_vm identity (backend w)) = Ok tt ->
      fst (set_power_state identity "GracefulShutdown" w) = Ok tt)
  /\ dict_get _VM_STATE_MAP "Nmi" = None
  /\ set_power_state identity "Nmi" w = (Raise NotSupportedError, w).
Proof.
  split; [reflexivity |].
  rewrite set_power_state_world.
  unfold set_power_state, try_except, set_power_state_try. simpl.
  unfold vm_soft_shutdown_vm, command.
  destruct (soft_shutdown_vm identity (backend w)) as [[[] | ex] h'] eqn:Hs;
    simpl; repeat split; auto; discriminate.
Qed.

(** C5: when the one hypervisor call [set_power_state] makes for a
    transition raises, an exception that is not a [FishyError] is replaced
    by a [FishyError] whose message includes the requested transition and the
    identity, a [FishyError] is raised again as it is, and in both cases the
    call was made once: the log gains that call and nothing else. *)
Theorem set_power_state_wraps_backend_failure identity state w ex h' :
  (exists vm_state,
      dict_get _VM_STATE_MAP state = Some vm_state
      /\ vm_state <> 0
      /\ set_vm_state identity vm_state (backend w) = (Raise ex, h'))
  \/ (state = "GracefulShutdown"
      /\ soft_shutdown_vm identity (backend w) = (Raise ex, h')) ->
  (is_FishyError ex = false ->
   fst (set_power_state identity state w)
   = Raise (FishyError (set_power_state_message state identity ex)))
  /\ (is_FishyError ex = true ->
      fst (set_power_state identity state w) = Raise ex)
  /\ includes state (set_power_state_message state identity ex)
  /\ includes identity (set_power_state_message state identity ex)
  /\ backend (snd (set_power_state identity state w)) = h'
  /\ exists c, is_power_call c = true
       /\ calls (snd (set_power_state identity state w)) = calls w ++ [c].
Proof.
  intros Hfail.
  assert (Htry : exists c, is_power_call c = true
            /\ set_power_state_try identity state w
               = (Raise ex, World h' (calls w ++ [c]))).
  { destruct Hfail as [(vm_state & Hget & Hnz & Hcall) | [-> Hcall]].
    - exists (Call_set_vm_state identity vm_state). split; [reflexivity |].
      unfold set_power_state_try. rewrite Hget.
      apply Z.eqb_neq in Hnz. rewrite Hnz.
      unfold vm_set_vm_state, command. now rewrite Hcall.
    - exists (Call_soft_shutdown_vm identity). split; [reflexivity |].
      unfold set_power_state_try. simpl.
      unfold vm_soft_shutdown_vm, command. now rewrite Hcall. }
  destruct Htry as (c & Hc & Htry).
  unfold set_power_state, try_except. rewrite Htry. unfold raise.
  split; [intros ->; reflexivity |].
  split; [intros ->; reflexivity |].
  split; [apply message_includes_state |].
  split; [apply message_includes_identity |].
  destruct (is_FishyError ex); simpl; eauto.
Qed.

(** ** Setting the boot device of a generation-2 VM *)

Lemma str_in_In (d : string) (lst : list string) :
  str_in d lst = true <-> In d lst.
Proof.
  unfold str_in. rewrite existsb_exists. split.
  - intros (x & Hin & Heq). apply String.eqb_eq in Heq. now subst.
  - intros Hin. exists d. split; [exact Hin | apply String.eqb_refl].
Qed.

(** [[d for d in old if d not in new]], when [new] is what a test selects
    from [old], is what the test rejects. *)
Lemma rest_is_rejected (f : string -> bool) (old : list string) :
  List.filter (fun d => negb (str_in d (List.filter f old))) old
  = List.filter (fun d => negb (f d)) old.
Proof.
  apply filter_ext_in. intros d Hin. f_equal.
  destruct (f d) eqn:Hf.
  - apply str_in_In, filter_In. now split.
  - destruct (str_in d (List.filter f old)) eqn:Hd; [| reflexivity].
    apply str_in_In, filter_In in Hd. destruct Hd as [_ Hd]. congruence.
Qed.

Lemma partition_Permutation {A : Type} (f : A -> bool) (l : list A) :
  Permutation l (List.filter f l ++ List.filter (fun a => negb (f a)) l).
Proof.
  induction l as [| a l IH]; simpl; [constructor |].
  destruct (f a); simpl.
  - now constructor.
  - now apply Permutation_cons_app.
Qed.

Lemma filter_filter_same {A : Type} (f : A -> bool) (l : list A) :
  List.filter f (List.filter f l) = List.filter f l.
Proof. apply forallb_filter_id, forallb_filter. Qed.

Lemma filter_filter_neg {A : Type} (f : A -> bool) (l : list A) :
  List.filter f (List.filter (fun a => negb (f a)) l) = [].
Proof.
  induction l as [| a l IH]; simpl; [reflexivity |].
  destruct (f a) eqn:Hf; simpl; [exact IH | now rewrite Hf].
Qed.

Lemma partition_idempotent {A : Type} (f : A -> bool) (l : list A) :
  let p := List.filter f l ++ List.filter (fun a => negb (f a)) l in
  List.filter f p ++ List.filter (fun a => negb (f a)) p = p.
Proof.
  simpl. rewrite !List.filter_app.
  rewrite filter_filter_same, filter_filter_neg, app_nil_r.
  rewrite (filter_filter_same (fun a => negb (f a))).
  replace (List.filter (fun a => negb (f a)) (List.filter f l)) with (@nil A);
    [reflexivity |].
  symmetry. induction l as [| a l IH]; simpl; [reflexivity |].
  destruct (f a) eqn:Hf; simpl; [now rewrite Hf |]; exact IH.
Qed.

Lemma stable_partition_idempotent boot_source (h : host) (old : list string) :
  stable_partition boot_source h (stable_partition boot_source h old)
  = stable_partition boot_source h old.
Proof. unfold stable_partition. apply partition_idempotent. Qed.

Lemma stable_partition_Permutation boot_source (h : host) (old : list string) :
  Permutation old (stable_partition boot_source h old).
Proof. apply partition_Permutation. Qed.

(** A selected boot source in the order puts a selected one in front. *)
Lemma stable_partition_head boot_source (h : host) (old : list string) d :
  In d old -> selected boot_source h d = true ->
  exists first rest,
    stable_partition boot_source h old = first :: rest
    /\ selected boot_source h first = true.
Proof.
  intros Hin Hsel. unfold stable_partition.
  destruct (List.filter (selected boot_source h) old) as [| first rest] eqn:Hf.
  - assert (Hd : In d (List.filter (selected boot_source h) old))
      by (apply filter_In; now split).
    rewrite Hf in Hd. destruct Hd.
  - exists first, (rest ++ List.filter (fun x => negb (selected boot_source h x)) old).
    split; [reflexivity |].
    assert (Hd : In first (List.filter (selected boot_source h) old))
      by (rewrite Hf; now left).
    apply filter_In in Hd. tauto.
Qed.

Lemma gen2_loop_body_run boot_source d (acc : list string) w :
  resolvable boot_source (backend w) d ->
  gen2_loop_body boot_source d acc w =
    (Ok (if selected boot_source (backend w) d then acc ++ [d] else acc),
     World (backend w) (calls w ++ [Call_get_wmi_obj d])).
Proof.
  intros (bssd & Hobj & Hres). unfold gen2_loop_body.
  rewrite (bind_ok _ _ _ _ _ (wmi_obj_step _ _ _ Hobj)).
  unfold selected, record_selected. rewrite Hobj.
  destruct (String.eqb boot_source "Pxe"
            && Z.eqb (BootSourceType bssd) _BOOT_SOURCE_TYPE_NETWORK) eqn:Hpxe.
  - reflexivity.
  - destruct Hres as [Hc | Hne]; [discriminate |].
    destruct (associators bssd) as [| rasd others]; [congruence |].
    unfold bind, lift, index0, ret. simpl.
    now destruct (String.eqb boot_source "Hdd"
                  && String.eqb (ResourceSubType rasd) _DISK_DRIVE_RES_SUB_TYPE
                  || String.eqb boot_source "Cd"
                     && String.eqb (ResourceSubType rasd) _DVD_DRIVE_RES_SUB_TYPE).
Qed.

Lemma gen2_loop_body_inv boot_source d (acc r : list string) w w' :
  gen2_loop_body boot_source d acc w = (Ok r, w') ->
  resolvable boot_source (backend w) d.
Proof.
  unfold gen2_loop_body, bind, vm_get_wmi_obj, query, lift, ret, resolvable.
  destruct (_get_wmi_obj d (backend w)) as [bssd | ex]; [| discriminate].
  intros Hrun. exists bssd. split; [reflexivity |].
  destruct (String.eqb boot_source "Pxe"
            && Z.eqb (BootSourceType bssd) _BOOT_SOURCE_TYPE_NETWORK);
    [now left | right].
  destruct (associators bssd); [discriminate | congruence].
Qed.

Lemma for_each_gen2_run boot_source (old : list string) :
  forall (acc : list string) w,
    Forall (resolvable boot_source (backend w)) old ->
    for_each old (gen2_loop_body boot_source) acc w =
      (Ok (acc ++ List.filter (selected boot_source (backend w)) old),
       World (backend w) (calls w ++ map Call_get_wmi_obj old)).
Proof.
  induction old as [| d old IH]; intros acc w Hall; simpl.
  - unfold ret. rewrite !app_nil_r. now destruct w.
  - inversion Hall as [| ? ? Hd Hrest]; subst.
    rewrite (bind_ok _ _ _ _ _ (gen2_loop_body_run _ _ acc _ Hd)).
    rewrite IH by exact Hrest. simpl.
    rewrite <- (app_assoc (calls w)). simpl.
    destruct (selected boot_source (backend w) d); simpl;
      [rewrite <- app_assoc |]; reflexivity.
Qed.

Lemma for_each_gen2_inv boot_source (old : list string) :
  forall (acc r : list string) w w',
    for_each old (gen2_loop_body boot_source) acc w = (Ok r, w') ->
    Forall (resolvable boot_source (backend w)) old.
Proof.
  induction old as [| d old IH]; intros acc r w w' Hrun; [constructor |].
  simpl in Hrun. unfold bind in Hrun.
  destruct (gen2_loop_body boot_source d acc w) as [[acc' | ex] w1] eqn:Hbody;
    [| discriminate].
  pose proof (gen2_loop_body_inv _ _ _ _ _ _ Hbody) as Hd.
  rewrite (gen2_loop_body_run _ _ acc _ Hd) in Hbody.
  injection Hbody as _ Hw1. subst w1.
  constructor; [exact Hd |]. exact (IH _ _ _ _ Hrun).
Qed.

Lemma _set_boot_device_gen2_run identity boot_source w vssd :
  _lookup_vm_check identity (backend w) = Ok vssd ->
  Forall (resolvable boot_source (backend w)) (BootSourceOrder vssd) ->
  _set_boot_device_gen2 identity boot_source w =
    vm_modify_virtual_system
      (set_BootSourceOrder vssd
         (stable_partition boot_source (backend w) (BootSourceOrder vssd)))
      (World (backend w)
         (calls w ++ Call_lookup_vm_check identity
                     :: map Call_get_wmi_obj (BootSourceOrder vssd))).
Proof.
  intros Hl Hall. unfold _set_boot_device_gen2.
  erewrite bind_ok by (apply lookup_step; exact Hl).
  erewrite bind_ok by (apply for_each_gen2_run; exact Hall).
  simpl. rewrite rest_is_rejected, <- app_assoc. reflexivity.
Qed.

Lemma _set_boot_device_gen2_inv identity boot_source w w1 :
  _set_boot_device_gen2 identity boot_source w = (Ok tt, w1) ->
  exists vssd,
    _lookup_vm_check identity (backend w) = Ok vssd
    /\ Forall (resolvable boot_source (backend w)) (BootSourceOrder vssd).
Proof.
  unfold _set_boot_device_gen2. intros Hrun.
  destruct (_lookup_vm_check identity (backend w)) as [vssd | ex] eqn:Hl.
  - exists vssd. split; [reflexivity |].
    rewrite (bind_ok _ _ _ _ _ (lookup_step _ _ _ Hl)) in Hrun.
    unfold bind in Hrun.
    destruct (for_each (BootSourceOrder vssd) (gen2_loop_body boot_source) []
                (World (backend w) (calls w ++ [Call_lookup_vm_check identity])))
      as [[sel | ex] w'] eqn:Hloop; [| discriminate].
    exact (for_each_gen2_inv _ _ _ _ _ _ Hloop).
  - unfold bind, vm_lookup_vm_check, query in Hrun. rewrite Hl in Hrun.
    discriminate.
Qed.

(** On well-formed records the selection test of the loop is the class
    [_get_boot_device_gen2] resolves. *)
Lemma selected_iff_class boot_source (bssd : Bssd) w :
  _DISK_DRIVE_RES_SUB_TYPE <> _DVD_DRIVE_RES_SUB_TYPE ->
  well_formed bssd ->
  record_selected boot_source bssd = true
  <-> fst (boot_source_class bssd w) = Ok (Some boot_source).
Proof.
  intros Hdistinct Hwf. unfold well_formed in Hwf.
  unfold record_selected, boot_source_class.
  destruct (associators bssd) as [| rasd others]; [destruct Hwf |].
  unfold bind, lift, index0, ret.
  destruct Hwf as [Hdrive | (Hnet & Hdisk & Hdvd)].
  - rewrite Hdrive. simpl. rewrite andb_false_r. simpl.
    destruct (String.eqb_spec (ResourceSubType rasd) _DISK_DRIVE_RES_SUB_TYPE)
      as [Hd | Hd];
      destruct (String.eqb_spec (ResourceSubType rasd) _DVD_DRIVE_RES_SUB_TYPE)
      as [Hv | Hv]; try congruence; simpl;
      rewrite ?andb_true_r, ?andb_false_r, ?orb_false_r; simpl.
    + rewrite String.eqb_eq. split; congruence.
    + rewrite String.eqb_eq. split; congruence.
    + split; discriminate.
  - rewrite Hnet. simpl. rewrite andb_true_r.
    apply String.eqb_neq in Hdisk, Hdvd. rewrite Hdisk, Hdvd.
    rewrite !andb_false_r, !orb_false_r.
    rewrite String.eqb_eq. split; congruence.
Qed.


(** On a host that stores what it is handed, the stable partition is the
    boot source order read back once [set_boot_device] has returned. *)
Corollary set_boot_device_gen2_persisted {store : BootStore host}
    identity boot_source w generation vssd w1 :
  get_vm_generation identity (backend w) = Ok generation ->
  generation <> VM_GEN_1 ->
  _lookup_vm_check identity (backend w) = Ok vssd ->
  Forall (resolvable boot_source (backend w)) (BootSourceOrder vssd) ->
  set_boot_device identity boot_source w = (Ok tt, w1) ->
  _lookup_vm_check identity (backend w1)
  = Ok (set_BootSourceOrder vssd
          (stable_partition boot_source (backend w) (BootSourceOrder vssd))).
Proof.
  intros Hg Hne Hl Hall Hrun.
  rewrite (set_boot_device_on_gen2 _ _ _ _ Hg Hne) in Hrun.
  rewrite (_set_boot_device_gen2_run identity boot_source
             (World (backend w) (calls w ++ [Call_get_vm_generation identity]))
             vssd Hl Hall) in Hrun.
  unfold vm_modify_virtual_system, command in Hrun. cbn [backend calls] in Hrun.
  destruct (_modify_virtual_system _ (backend w)) as [r h1] eqn:Hmod.
  injection Hrun as -> <-. cbn [backend].
  exact (modify_stored _ _ _ _ _ Hmod Hl eq_refl).
Qed.

Lemma selected_ext boot_source (h h' : host) :
  (forall path, _get_wmi_obj path h' = _get_wmi_obj path h) ->
  forall d, selected boot_source h' d = selected boot_source h d.
Proof. intros Hext d. unfold selected. now rewrite Hext. Qed.

Lemma stable_partition_ext boot_source (h h' : host) (old : list string) :
  (forall path, _get_wmi_obj path h' = _get_wmi_obj path h) ->
  stable_partition boot_source h' old = stable_partition boot_source h old.
Proof.
  intros Hext. unfold stable_partition. f_equal; apply filter_ext; intros d;
    now rewrite (selected_ext _ _ _ Hext).
Qed.

Lemma resolvable_ext boot_source (h h' : host) d :
  (forall path, _get_wmi_obj path h' = _get_wmi_obj path h) ->
  resolvable boot_source h d -> resolvable boot_source h' d.
Proof. intros Hext (bssd & Hobj & Hres). exists bssd. now rewrite Hext. Qed.

(** C3: on a host that stores what it is handed, once [set_boot_device]
    has returned for a VM of a generation other than 1, a second
    [set_boot_device] for the same class hands [_modify_virtual_system]
    exactly the settings the VM already has, and when that call returns the
    VM's settings, so its boot source order, are those the first application
    left. *)
Theorem set_boot_device_gen2_idempotent {store : BootStore host}
    identity boot_source w generation w1 :
  get_vm_generation identity (backend w) = Ok generation ->
  generation <> VM_GEN_1 ->
  set_boot_device identity boot_source w = (Ok tt, w1) ->
  exists vssd1,
    _lookup_vm_check identity (backend w1) = Ok vssd1
    /\ set_boot_device identity boot_source w1
       = vm_modify_virtual_system vssd1
           (World (backend w1)
              (calls w1 ++ Call_get_vm_generation identity
                           :: Call_lookup_vm_check identity
                           :: map Call_get_wmi_obj (BootSourceOrder vssd1)))
    /\ forall w2,
         set_boot_device identity boot_source w1 = (Ok tt, w2) ->
         _lookup_vm_check identity (backend w2) = Ok vssd1.
Proof.
  intros Hg Hne Hrun.
  rewrite (set_boot_device_on_gen2 _ _ _ _ Hg Hne) in Hrun.
  destruct (_set_boot_device_gen2_inv _ _ _ _ Hrun) as (vssd & Hl & Hall).
  simpl in Hl, Hall.
  rewrite (_set_boot_device_gen2_run identity boot_source
             (World (backend w) (calls w ++ [Call_get_vm_generation identity]))
             vssd Hl Hall) in Hrun.
  simpl in Hrun.
  set (old := BootSourceOrder vssd) in *.
  set (new := stable_partition boot_source (backend w) old) in *.
  unfold vm_modify_virtual_system, command in Hrun. simpl in Hrun.
  destruct (_modify_virtual_system (set_BootSourceOrder vssd new) (backend w))
    as [r h1] eqn:Hmod.
  injection Hrun as -> <-. simpl.
  pose proof (modify_stored _ _ _ _ _ Hmod Hl eq_refl) as Hl1.
  pose proof (fun path => modify_wmi_obj _ _ _ path Hmod) as Hext.
  assert (Hg1 : get_vm_generation identity h1 = Ok generation)
    by (now rewrite (modify_generation _ _ _ identity Hmod)).
  assert (Hall1 : Forall (resolvable boot_source h1) new).
  { eapply Permutation_Forall;
      [apply stable_partition_Permutation |].
    eapply List.Forall_impl; [| exact Hall].
    intros d. now apply resolvable_ext. }
  assert (Hsecond :
    forall cs, set_boot_device identity boot_source (World h1 cs)
    = vm_modify_virtual_system (set_BootSourceOrder vssd new)
        (World h1 (cs ++ Call_get_vm_generation identity
                         :: Call_lookup_vm_check identity
                         :: map Call_get_wmi_obj new))).
  { intros cs.
    rewrite (set_boot_device_on_gen2 identity boot_source (World h1 cs)
               generation Hg1 Hne).
    cbn [backend calls].
    rewrite (_set_boot_device_gen2_run identity boot_source
               (World h1 (cs ++ [Call_get_vm_generation identity]))
               (set_BootSourceOrder vssd new) Hl1 Hall1).
    simpl. rewrite (stable_partition_ext _ _ _ _ Hext).
    unfold new at 2. rewrite stable_partition_idempotent. fold new.
    rewrite <- app_assoc. reflexivity. }
  exists (set_BootSourceOrder vssd new). split; [exact Hl1 |].
  split; [apply Hsecond |].
  intros w2 Hrun2. rewrite Hsecond in Hrun2.
  unfold vm_modify_virtual_system, command in Hrun2. simpl in Hrun2.
  destruct (_modify_virtual_system (set_BootSourceOrder vssd new) h1)
    as [r2 h2] eqn:Hmod2.
  injection Hrun2 as -> <-. simpl.
  exact (modify_stored _ _ _ _ _ Hmod2 Hl1 eq_refl).
Qed.

(** ** Setting, then reading, the boot device of a generation-1 VM *)

Lemma dict_get_In_values (items : list (string * Z)) key v :
  dict_get items key = Some v -> In v (map snd items).
Proof.
  induction items as [| [k0 v0] items IH]; simpl; [discriminate |].
  destruct (String.eqb k0 key).
  - intros [= ->]. now left.
  - intros Hget. right. now apply IH.
Qed.

(** When no two keys share a value, [next_key] inverts [dict_get]. *)
Lemma next_key_of_dict_get (items : list (string * Z)) key v (rest : list Z) :
  List.NoDup (map snd items) ->
  dict_get items key = Some v ->
  next_key items (v :: rest) = Ok key.
Proof.
  induction items as [| [k0 v0] items IH]; simpl; [discriminate |].
  intros Hnodup Hget. inversion Hnodup as [| ? ? Hnotin Hnodup']; subst.
  destruct (String.eqb_spec k0 key) as [-> | Hk].
  - injection Hget as ->. now rewrite Z.eqb_refl.
  - destruct (Z.eqb_spec v0 v) as [-> | Hv].
    + elim Hnotin. eapply dict_get_In_values; eassumption.
    + now apply IH.
Qed.

Lemma filter_absent (x : Z) (lst : list Z) :
  ~ In x lst -> List.filter (fun y => negb (Z.eqb y x)) lst = lst.
Proof.
  intros Hnot. apply forallb_filter_id, forallb_forall. intros y Hy.
  apply negb_true_iff, Z.eqb_neq. intros ->. contradiction.
Qed.

(** On a list without repetition, [lst.remove(x)] leaves the elements other
    than [x], in order. *)
Lemma list_remove_NoDup (x : Z) (lst : list Z) :
  List.NoDup lst -> In x lst ->
  list_remove x lst = Some (List.filter (fun y => negb (Z.eqb y x)) lst).
Proof.
  induction lst as [| y lst IH]; intros Hnodup Hin; [destruct Hin |].
  inversion Hnodup as [| ? ? Hnotin Hnodup']; subst. simpl.
  destruct (Z.eqb_spec y x) as [-> | Hne]; simpl.
  - now rewrite filter_absent.
  - destruct Hin as [-> | Hin]; [congruence |].
    now rewrite IH.
Qed.

(** C2: on a host that stores what it is handed, with the three tokens of
    [_BOOT_ORDER_MAP] pairwise distinct, for a generation-1 VM whose boot
    order has no repetition and holds the token of the requested class:
    [set_boot_device] returns once the host's [set_boot_order] does, the
    order then read back is that token followed by the other entries in
    their original order, and [get_boot_device] returns the requested
    class. *)
Theorem set_then_get_boot_device_gen1 {store : BootStore host}
    identity boot_source token w vssd h1 :
  List.NoDup (map snd _BOOT_ORDER_MAP) ->
  get_vm_generation identity (backend w) = Ok VM_GEN_1 ->
  _lookup_vm_check identity (backend w) = Ok vssd ->
  dict_get _BOOT_ORDER_MAP boot_source = Some token ->
  In token (BootOrder vssd) ->
  List.NoDup (BootOrder vssd) ->
  let new_order :=
    token :: List.filter (fun t => negb (Z.eqb t token)) (BootOrder vssd) in
  set_boot_order identity new_order (backend w) = (Ok tt, h1) ->
  let w1 := snd (set_boot_device identity boot_source w) in
  fst (set_boot_device identity boot_source w) = Ok tt
  /\ backend w1 = h1
  /\ (exists vssd1,
         _lookup_vm_check identity (backend w1) = Ok vssd1
         /\ BootOrder vssd1 = new_order)
  /\ fst (get_boot_device identity w1) = Ok (Some boot_source).
Proof.
  intros Hvalues Hg Hl Hget Hin Hnodup new_order Hset w1.
  assert (Hrun : set_boot_device identity boot_source w
                 = (Ok tt, World h1 (calls w
                      ++ [Call_get_vm_generation identity;
                          Call_lookup_vm_check identity;
                          Call_set_boot_order identity new_order]))).
  { rewrite (set_boot_device_on_gen1 _ _ _ Hg). unfold _set_boot_device_gen1.
    erewrite bind_ok by (apply lookup_step; exact Hl).
    rewrite Hget, (list_remove_NoDup _ _ Hnodup Hin).
    unfold vm_set_boot_order, command. simpl. fold new_order.
    rewrite Hset. now rewrite <- !app_assoc. }
  subst w1. rewrite Hrun. simpl.
  pose proof (set_boot_order_stored _ _ _ _ _ Hset Hl) as Hl1.
  assert (Hg1 : get_vm_generation identity h1 = Ok VM_GEN_1)
    by (now rewrite (set_boot_order_generation _ _ _ _ identity Hset)).
  split; [reflexivity |]. split; [reflexivity |].
  split; [eexists; split; [exact Hl1 | reflexivity] |].
  rewrite get_boot_device_on_gen1 by exact Hg1.
  cbn [backend calls]. unfold _get_boot_device_gen1.
  erewrite bind_ok by (apply lookup_step; exact Hl1). cbn [BootOrder].
  unfold new_order.
  erewrite next_key_of_dict_get; [reflexivity | exact Hvalues | exact Hget].
Qed.

End Correctness.

(** * The in-memory host *)

(** The in-memory host stores what it is handed. *)
Lemma MemHost_lawful : @BootStore MemHost.t MemHost.vmutils.
Proof.
  constructor; simpl; unfold MemHost.update_vm, MemHost.with_vm.
  - intros identity order h h' vssd Hset Hl.
    destruct (MemHost.vms h !! identity) as [v |] eqn:Hv; [| discriminate].
    injection Hset as <-. injection Hl as <-. simpl.
    now rewrite lookup_insert_eq.
  - intros identity order h h' identity' Hset.
    destruct (MemHost.vms h !! identity) as [v |] eqn:Hv; [| discriminate].
    injection Hset as <-. simpl.
    destruct (decide (identity = identity')) as [<- | Hne].
    + now rewrite lookup_insert_eq, Hv.
    + now rewrite lookup_insert_ne.
  - intros vssd h h' identity vssd0 Hmod Hl Hid.
    destruct (MemHost.vms h !! identity) as [v |] eqn:Hv; [| discriminate].
    injection Hl as <-. simpl in Hid. subst identity. rewrite Hv in Hmod.
    injection Hmod as <-. simpl. rewrite lookup_insert_eq.
    now destruct vssd.
  - intros vssd h h' identity Hmod.
    destruct (MemHost.vms h !! InstanceID vssd) as [v |] eqn:Hv;
      [| discriminate].
    injection Hmod as <-. simpl.
    destruct (decide (InstanceID vssd = identity)) as [<- | Hne].
    + now rewrite lookup_insert_eq, Hv.
    + now rewrite lookup_insert_ne.
  - intros vssd h h' path Hmod.
    destruct (MemHost.vms h !! InstanceID vssd) as [v |]; [| discriminate].
    now injection Hmod as <-.
Qed.

Section Samples.

#[local] Existing Instance MemHost.constants.
#[local] Existing Instance MemHost.vmutils.

(** The three tokens of the sample constants are pairwise distinct. *)
Lemma sample_tokens_distinct : List.NoDup (map snd _BOOT_ORDER_MAP).
Proof. repeat constructor; simpl; intuition discriminate. Qed.


(** On the sample host: "vm2" is a generation-2 VM, "vm1" is not. *)
Lemma get_boot_mode_by_generation_sample :
  fst (get_boot_mode "vm2" MemHost.start) = Ok (Some "UEFI")
  /\ fst (get_boot_mode "vm1" MemHost.start) = Ok (Some "Legacy").
Proof.
  split.
  - apply (get_boot_mode_by_generation "vm2" MemHost.start 2);
      reflexivity.
  - apply (get_boot_mode_by_generation "vm1" MemHost.start 1);
      [reflexivity | discriminate].
Defined.

(** On the sample host: the paused "vm3" is reported "Off". *)
Lemma get_power_state_paused_sample :
  fst (get_power_state "vm3" MemHost.start) = Ok (Some "Off")
  /\ fst (get_power_state "vm3" MemHost.start) <> Ok None.
Proof.
  apply (get_power_state_not_enabled_is_off "vm3" MemHost.start
           MemHost.HYPERV_VM_STATE_PAUSED);
    [reflexivity | discriminate].
Defined.

(** On the sample host: "vm4" boots from the floppy drive first. *)
Lemma get_boot_device_floppy_first_sample :
  fst (get_boot_device "vm4" MemHost.start) = Raise StopIteration.
Proof.
  apply (get_boot_device_gen1_unmapped_first "vm4" MemHost.start
           (MemHost.vssd_of "vm4" MemHost.floppy_first_vm)
           MemHost.BOOT_DEVICE_FLOPPY [1; 2; 3]);
    try reflexivity.
  simpl. intuition discriminate.
Defined.

(** On the sample host: "vm5" is the generation-1 VM with no boot order,
    "vm3" the generation-2 VM with none. *)
Lemma get_boot_device_empty_order_sample :
  fst (get_boot_device "vm5" MemHost.start) = Raise IndexError
  /\ fst (get_boot_device "vm3" MemHost.start) = Ok None.
Proof.
  split.
  - apply (get_boot_device_empty_order "vm5" MemHost.start 1
             (MemHost.vssd_of "vm5" MemHost.empty_order_vm));
      reflexivity.
  - apply (get_boot_device_empty_order "vm3" MemHost.start 2
             (MemHost.vssd_of "vm3" MemHost.paused_vm));
      try reflexivity.
    discriminate.
Defined.

(** On the sample host: "Floppy" is no key of [_BOOT_ORDER_MAP]. *)
Lemma set_boot_device_gen1_unmapped_class_sample :
  fst (set_boot_device "vm1" "Floppy" MemHost.start) = Raise ValueError
  /\ backend (snd (set_boot_device "vm1" "Floppy" MemHost.start))
     = MemHost.sample.
Proof.
  destruct (set_boot_device_gen1_unmapped_class "vm1" "Floppy" MemHost.start
              (MemHost.vssd_of "vm1" MemHost.gen1_vm))
    as (Hraise & Hhost & _); try reflexivity.
  split; [exact Hraise | exact Hhost].
Defined.

(** On the sample host: there is no VM "nope" to switch on. *)
Lemma set_power_state_wraps_backend_failure_sample :
  fst (set_power_state "nope" "On" MemHost.start)
  = Raise (FishyError
             (set_power_state_message "On" "nope" (MemHost.not_found "nope")))
  /\ includes "nope"
       (set_power_state_message "On" "nope" (MemHost.not_found "nope"))
  /\ calls (snd (set_power_state "nope" "On" MemHost.start))
     = [Call_set_vm_state "nope" 2].
Proof.
  destruct (set_power_state_wraps_backend_failure "nope" "On" MemHost.start
              (MemHost.not_found "nope") MemHost.sample) as
    (Hwrap & _ & _ & Hincl & _ & _).
  - left. exists 2. split; [reflexivity |]. split; [discriminate | reflexivity].
  - split; [apply Hwrap; reflexivity |]. split; [exact Hincl | reflexivity].
Defined.


(** On the sample host: a second "Hdd" request for "vm2" stores what the
    first one stored. *)
Lemma set_boot_device_gen2_idempotent_sample :
  let w1 := snd (set_boot_device "vm2" "Hdd" MemHost.start) in
  exists vssd1,
    _lookup_vm_check "vm2" (backend w1) = Ok vssd1
    /\ _lookup_vm_check "vm2"
         (backend (snd (set_boot_device "vm2" "Hdd" w1))) = Ok vssd1.
Proof.
  intros w1.
  destruct (set_boot_device_gen2_idempotent (store := MemHost_lawful)
              "vm2" "Hdd" MemHost.start 2 w1) as (vssd1 & Hl1 & _ & Hsame).
  - reflexivity.
  - discriminate.
  - vm_compute. reflexivity.
  - exists vssd1. split; [exact Hl1 |].
    apply Hsame. vm_compute. reflexivity.
Defined.

(** On the sample host: "vm1" boots CD, disk, network, floppy; after
    "Pxe" is requested it boots network, CD, disk, floppy. *)
Lemma set_then_get_boot_device_gen1_sample :
  let w1 := snd (set_boot_device "vm1" "Pxe" MemHost.start) in
  fst (set_boot_device "vm1" "Pxe" MemHost.start) = Ok tt
  /\ (exists vssd1,
         _lookup_vm_check "vm1" (backend w1) = Ok vssd1
         /\ BootOrder vssd1 = [3; 1; 2; 0])
  /\ fst (get_boot_device "vm1" w1) = Ok (Some "Pxe").
Proof.
  intros w1.
  destruct (set_then_get_boot_device_gen1 (store := MemHost_lawful)
              "vm1" "Pxe" 3 MemHost.start
              (MemHost.vssd_of "vm1" MemHost.gen1_vm)
              (snd (set_boot_order "vm1" [3; 1; 2; 0] MemHost.sample)))
    as (Hset & _ & Hstored & Hget).
  - exact sample_tokens_distinct.
  - reflexivity.
  - reflexivity.
  - reflexivity.
  - simpl. tauto.
  - repeat constructor; simpl; intuition discriminate.
  - vm_compute. reflexivity.
  - split; [exact Hset |]. split; [exact Hstored | exact Hget].
Defined.

End Samples.

(** * Further properties of the driver *)

Section Power.

Context {host : Type} {consts : Constants} {vmutils : VMUtils host}.

Implicit Types (w : world host) (identity boot_source state : string).

Lemma mapped_state_lookup state (vm_state : Z) :
  In (state, vm_state) _VM_STATE_MAP ->
  dict_get _VM_STATE_MAP state = Some vm_state.
Proof.
  simpl. intros [H | [H | [H | [H | []]]]]; injection H as <- <-; reflexivity.
Qed.

Lemma dict_get_absent {V : Type} (d : list (string * V)) (key : string) :
  ~ In key (map fst d) -> dict_get d key = None.
Proof.
  induction d as [| [k v] d IH]; intros Hnot; [reflexivity |].
  cbn [dict_get]. destruct (String.eqb_spec k key) as [-> | Hne].
  - elim Hnot. now left.
  - apply IH. intros Hin. apply Hnot. now right.
Qed.

Lemma unmapped_state_lookup state :
  ~ In state ["On"; "ForceOn"; "ForceOff"; "ForceRestart"] ->
  dict_get _VM_STATE_MAP state = None.
Proof. intros Hnot. apply dict_get_absent. exact Hnot. Qed.

(** The four hard transitions: with a non-zero state constant, each entry of
    [_VM_STATE_MAP] makes [set_power_state] call [set_vm_state] once with the
    entry's constant and nothing else; the host is the one that call leaves,
    and [set_power_state] returns exactly when that call does. *)
Theorem set_power_state_hard_transition identity state vm_state w :
  In (state, vm_state) _VM_STATE_MAP ->
  vm_state <> 0 ->
  calls (snd (set_power_state identity state w))
  = calls w ++ [Call_set_vm_state identity vm_state]
  /\ backend (snd (set_power_state identity state w))
     = snd (set_vm_state identity vm_state (backend w))
  /\ (fst (set_power_state identity state w) = Ok tt
      <-> fst (set_vm_state identity vm_state (backend w)) = Ok tt).
Proof.
  intros Hin Hnz. apply mapped_state_lookup in Hin.
  rewrite set_power_state_world.
  unfold set_power_state, try_except, set_power_state_try. rewrite Hin.
  apply Z.eqb_neq in Hnz. rewrite Hnz.
  unfold vm_set_vm_state, command.
  destruct (set_vm_state identity vm_state (backend w)) as [[[] | ex] h'];
    simpl; repeat split; auto; try discriminate.
  unfold raise. destruct (is_FishyError ex); discriminate.
Qed.

(** A transition that is neither a key of [_VM_STATE_MAP] nor
    "GracefulShutdown" ("GracefulRestart", "Nmi", any other string) is
    refused with [NotSupportedError] before the hypervisor is called. *)
Theorem set_power_state_unsupported identity state w :
  ~ In state ["On"; "ForceOn"; "ForceOff"; "ForceRestart"; "GracefulShutdown"] ->
  set_power_state identity state w = (Raise NotSupportedError, w).
Proof.
  intros Hnot.
  assert (Hmap : dict_get _VM_STATE_MAP state = None).
  { apply unmapped_state_lookup. intros Hin. apply Hnot. simpl in *. tauto. }
  assert (Hgs : String.eqb state "GracefulShutdown" = false).
  { apply String.eqb_neq. intros ->. apply Hnot. simpl. tauto. }
  unfold set_power_state, try_except, set_power_state_try.
  now rewrite Hmap, Hgs.
Qed.

(** Among the exceptions that derive from [Exception], which are the values
    of [exn], whatever [set_power_state] raises is a [FishyError].  An
    exception outside [Exception], which [except Exception] does not catch,
    is outside this statement. *)
Theorem set_power_state_raises_FishyError_only identity state w ex :
  fst (set_power_state identity state w) = Raise ex ->
  is_FishyError ex = true.
Proof.
  unfold set_power_state, try_except.
  destruct (set_power_state_try identity state w) as [[[] | ex0] w'];
    [discriminate |].
  unfold raise. destruct (is_FishyError ex0) eqn:Hkind; simpl;
    intros [= <-]; [exact Hkind | reflexivity].
Qed.

(** Only [set_power_state] wraps.  When [get_vm_state] raises,
    [get_power_state] raises that very exception; when [get_vm_generation]
    raises, [get_boot_mode], [get_boot_device] and [set_boot_device] each
    raise that very exception; whatever its kind, and whatever the other
    query would have answered. *)
Theorem backend_failure_propagates_unwrapped identity w :
  (forall ex,
      get_vm_state identity (backend w) = Raise ex ->
      fst (get_power_state identity w) = Raise ex)
  /\ (forall ex,
        get_vm_generation identity (backend w) = Raise ex ->
        fst (get_boot_mode identity w) = Raise ex
        /\ fst (get_boot_device identity w) = Raise ex
        /\ forall boot_source,
             fst (set_boot_device identity boot_source w) = Raise ex).
Proof.
  split.
  - intros ex Hs.
    unfold get_power_state, vm_get_vm_state, bind, query. now rewrite Hs.
  - intros ex Hg.
    unfold get_boot_mode, get_boot_device, set_boot_device,
      vm_get_vm_generation, bind, query.
    rewrite Hg. simpl. auto.
Qed.

(** ** Methods that only read *)

Lemma read_only_ret {A : Type} (a : A) : read_only (@ret host A a).
Proof. intros w. simpl. auto. Qed.

Lemma read_only_raise {A : Type} (ex : exn) : read_only (@raise host A ex).
Proof. intros w. simpl. auto. Qed.

Lemma read_only_lift {A : Type} (r : result A) : read_only (@lift host A r).
Proof. intros w. simpl. auto. Qed.

Lemma read_only_query {A : Type} (c : call) (f : host -> result A) :
  is_power_call c = false -> is_persist_call c = false ->
  read_only (query c f).
Proof.
  intros Hpower Hpersist w. unfold query. simpl.
  rewrite !List.filter_app. simpl. rewrite Hpower, Hpersist, !app_nil_r. auto.
Qed.

Lemma read_only_bind {A B : Type} (m : M host A) (k : A -> M host B) :
  read_only m -> (forall a, read_only (k a)) -> read_only (bind m k).
Proof.
  intros Hm Hk w. unfold bind. specialize (Hm w).
  destruct (m w) as [[a | ex] w']; simpl in Hm.
  - destruct (Hk a w') as (Hb & Hpower & Hpersist).
    destruct Hm as (Hb' & Hpower' & Hpersist').
    repeat split; congruence.
  - exact Hm.
Qed.

Ltac read_only_steps :=
  repeat first
    [ apply read_only_ret
    | apply read_only_raise
    | apply read_only_lift
    | apply read_only_query; reflexivity
    | apply read_only_bind; [| intros ?]
    | match goal with
      | |- read_only (if ?b then _ else _) => destruct b
      | |- read_only (match ?x with _ => _ end) => destruct x
      end ].

(** The three getters only read: whatever they return or raise, the host
    is as it was, and no power call and no call that persists a boot order
    has been made. *)
Theorem getters_read_only identity :
  read_only (get_power_state identity)
  /\ read_only (get_boot_device identity)
  /\ read_only (get_boot_mode identity).
Proof.
  unfold get_power_state, get_boot_device, get_boot_mode,
    _get_boot_device_gen1, _get_boot_device_gen2, boot_source_class,
    vm_get_vm_state, vm_get_vm_generation, vm_lookup_vm_check,
    vm_get_wmi_obj.
  repeat split; read_only_steps.
Qed.

End Power.

Section Generation1.

Context {host : Type} {consts : Constants} {vmutils : VMUtils host}.

Implicit Types (w : world host) (identity boot_source : string).

(** ** [list.remove] and the generator of [_get_boot_device_gen1] *)

Lemma list_remove_absent (x : Z) (lst : list Z) :
  ~ In x lst -> list_remove x lst = None.
Proof.
  induction lst as [| y lst IH]; intros Hnot; [reflexivity |].
  cbn [list_remove]. destruct (Z.eqb_spec y x) as [-> | Hne].
  - elim Hnot. now left.
  - rewrite IH; [reflexivity |]. intros Hin. apply Hnot. now right.
Qed.

Lemma list_remove_first (x : Z) (before after : list Z) :
  ~ In x before ->
  list_remove x (before ++ x :: after) = Some (before ++ after).
Proof.
  induction before as [| y before IH]; intros Hnot; cbn [list_remove app].
  - now rewrite Z.eqb_refl.
  - destruct (Z.eqb_spec y x) as [-> | Hne].
    + elim Hnot. now left.
    + rewrite IH; [reflexivity |]. intros Hin. apply Hnot. now right.
Qed.

Lemma next_key_in_keys (items : list (string * Z)) (order : list Z) k :
  next_key items order = Ok k -> In k (map fst items).
Proof.
  induction items as [| [k0 v0] items IH]; cbn [next_key]; [discriminate |].
  destruct order as [| first rest]; [discriminate |]. cbn [index0 map fst].
  destruct (Z.eqb v0 first).
  - intros [= ->]. now left.
  - intros Hnext. right. now apply IH.
Qed.

(** With distinct keys, the key [next] yields maps to the first entry. *)
Lemma next_key_sound (items : list (string * Z)) (order : list Z) k :
  List.NoDup (map fst items) ->
  next_key items order = Ok k ->
  exists first rest,
    order = first :: rest /\ dict_get items k = Some first.
Proof.
  induction items as [| [k0 v0] items IH]; cbn [next_key]; [discriminate |].
  intros Hkeys Hnext. inversion Hkeys as [| ? ? Hfresh Hkeys']; subst.
  destruct order as [| first rest]; [discriminate |]. cbn [index0] in Hnext.
  destruct (Z.eqb_spec v0 first) as [-> | Hne].
  - injection Hnext as ->. exists first, rest. cbn [dict_get].
    now rewrite String.eqb_refl.
  - destruct (IH Hkeys' Hnext) as (first' & rest' & Horder & Hget).
    injection Horder as <- <-. exists first, rest. split; [reflexivity |].
    cbn [dict_get]. destruct (String.eqb_spec k0 k) as [-> | _]; [| exact Hget].
    elim Hfresh. eapply next_key_in_keys. exact Hnext.
Qed.

Lemma boot_order_map_keys_distinct : List.NoDup (map fst _BOOT_ORDER_MAP).
Proof.
  cbn [map fst _BOOT_ORDER_MAP].
  repeat constructor; cbn [In]; intuition discriminate.
Qed.

Lemma _set_boot_device_gen1_run identity boot_source w vssd token removed :
  _lookup_vm_check identity (backend w) = Ok vssd ->
  dict_get _BOOT_ORDER_MAP boot_source = Some token ->
  list_remove token (BootOrder vssd) = Some removed ->
  _set_boot_device_gen1 identity boot_source w
  = vm_set_boot_order identity (token :: removed)
      (World (backend w) (calls w ++ [Call_lookup_vm_check identity])).
Proof.
  intros Hl Hget Hremove. unfold _set_boot_device_gen1.
  erewrite bind_ok by (apply lookup_step; exact Hl).
  now rewrite Hget, Hremove.
Qed.

Lemma _set_boot_device_gen1_inv identity boot_source w w1 :
  _set_boot_device_gen1 identity boot_source w = (Ok tt, w1) ->
  exists vssd token removed,
    _lookup_vm_check identity (backend w) = Ok vssd
    /\ dict_get _BOOT_ORDER_MAP boot_source = Some token
    /\ list_remove token (BootOrder vssd) = Some removed.
Proof.
  unfold _set_boot_device_gen1, bind, vm_lookup_vm_check, query, raise.
  destruct (_lookup_vm_check identity (backend w)) as [vssd | ex];
    [| discriminate].
  destruct (dict_get _BOOT_ORDER_MAP boot_source) as [token |];
    [| discriminate].
  destruct (list_remove token (BootOrder vssd)) as [removed |] eqn:Hremove;
    [| discriminate].
  intros _. now exists vssd, token, removed.
Qed.

(** ** Reading the boot device of a generation-1 VM *)

(** With the three tokens pairwise distinct, [get_boot_device] on a
    generation-1 VM returns the class whose token comes first in the boot
    order, whatever follows it. *)
Theorem get_boot_device_gen1_class_of_first
    identity boot_source w vssd first rest :
  List.NoDup (map snd _BOOT_ORDER_MAP) ->
  get_vm_generation identity (backend w) = Ok VM_GEN_1 ->
  _lookup_vm_check identity (backend w) = Ok vssd ->
  BootOrder vssd = first :: rest ->
  dict_get _BOOT_ORDER_MAP boot_source = Some first ->
  fst (get_boot_device identity w) = Ok (Some boot_source).
Proof.
  intros Hvalues Hg Hl Horder Hget.
  rewrite (get_boot_device_on_gen1 _ _ Hg). unfold _get_boot_device_gen1.
  erewrite bind_ok by (apply lookup_step; exact Hl).
  rewrite Horder. erewrite next_key_of_dict_get by eassumption. reflexivity.
Qed.

(** ** Setting the boot device of a generation-1 VM *)

(** A class whose token is not in the VM's boot order cannot be requested:
    [boot_order.remove] raises [ValueError], the host is left as it was and
    no boot order is persisted. *)
Theorem set_boot_device_gen1_token_absent
    identity boot_source token w vssd :
  get_vm_generation identity (backend w) = Ok VM_GEN_1 ->
  _lookup_vm_check identity (backend w) = Ok vssd ->
  dict_get _BOOT_ORDER_MAP boot_source = Some token ->
  ~ In token (BootOrder vssd) ->
  fst (set_boot_device identity boot_source w) = Raise ValueError
  /\ backend (snd (set_boot_device identity boot_source w)) = backend w
  /\ List.filter is_persist_call
       (calls (snd (set_boot_device identity boot_source w)))
     = List.filter is_persist_call (calls w).
Proof.
  intros Hg Hl Hget Hnot.
  rewrite (set_boot_device_on_gen1 _ _ _ Hg). unfold _set_boot_device_gen1.
  erewrite bind_ok by (apply lookup_step; exact Hl).
  rewrite Hget, (list_remove_absent _ _ Hnot). unfold raise. simpl.
  repeat split. rewrite !List.filter_app. simpl. now rewrite !app_nil_r.
Qed.

(** Only the first occurrence of the token moves: from the order
    [before ++ token :: after], with no [token] in [before],
    [set_boot_device] hands [set_boot_order] the order
    [token :: before ++ after], a permutation of the old one; a repeated
    token stays where it was in [after]. *)
Theorem set_boot_device_gen1_moves_first_occurrence
    identity boot_source token w vssd before after :
  get_vm_generation identity (backend w) = Ok VM_GEN_1 ->
  _lookup_vm_check identity (backend w) = Ok vssd ->
  dict_get _BOOT_ORDER_MAP boot_source = Some token ->
  BootOrder vssd = before ++ token :: after ->
  ~ In token before ->
  set_boot_device identity boot_source w
  = vm_set_boot_order identity (token :: before ++ after)
      (World (backend w)
         (calls w ++ [Call_get_vm_generation identity;
                      Call_lookup_vm_check identity]))
  /\ Permutation (BootOrder vssd) (token :: before ++ after).
Proof.
  intros Hg Hl Hget Horder Hnot. split.
  - rewrite (set_boot_device_on_gen1 _ _ _ Hg).
    rewrite (_set_boot_device_gen1_run identity boot_source
               (World (backend w) (calls w ++ [Call_get_vm_generation identity]))
               vssd token (before ++ after) Hl Hget).
    + cbn [backend calls]. now rewrite <- app_assoc.
    + rewrite Horder. now apply list_remove_first.
  - rewrite Horder. symmetry. apply Permutation_middle.
Qed.

(** Requesting the class [get_boot_device] has just returned changes
    nothing: [set_boot_device] hands [set_boot_order] the boot order as the
    VM has it. *)
Theorem set_boot_device_gen1_of_current identity w k :
  get_vm_generation identity (backend w) = Ok VM_GEN_1 ->
  fst (get_boot_device identity w) = Ok (Some k) ->
  exists vssd,
    _lookup_vm_check identity (backend w) = Ok vssd
    /\ set_boot_device identity k w
       = vm_set_boot_order identity (BootOrder vssd)
           (World (backend w)
              (calls w ++ [Call_get_vm_generation identity;
                           Call_lookup_vm_check identity])).
Proof.
  intros Hg Hcurrent.
  rewrite (get_boot_device_on_gen1 _ _ Hg) in Hcurrent.
  unfold _get_boot_device_gen1, bind, vm_lookup_vm_check, query, lift, ret
    in Hcurrent.
  cbn [backend calls] in Hcurrent.
  destruct (_lookup_vm_check identity (backend w)) as [vssd | ex] eqn:Hl;
    [| discriminate].
  destruct (next_key _BOOT_ORDER_MAP (BootOrder vssd)) as [k' | ex] eqn:Hnext;
    [| discriminate].
  cbn [fst] in Hcurrent. injection Hcurrent as ->.
  destruct (next_key_sound _ _ _ boot_order_map_keys_distinct Hnext)
    as (first & rest & Horder & Hget).
  exists vssd. split; [reflexivity |].
  rewrite (set_boot_device_on_gen1 _ _ _ Hg).
  rewrite (_set_boot_device_gen1_run identity k
             (World (backend w) (calls w ++ [Call_get_vm_generation identity]))
             vssd first rest Hl Hget).
  - cbn [backend calls]. now rewrite Horder, <- app_assoc.
  - rewrite Horder. cbn [list_remove]. now rewrite Z.eqb_refl.
Qed.

(** On a host that stores what it is handed, a second [set_boot_device] for
    the same class hands [set_boot_order] the order the first one stored,
    and when it returns the VM's settings are those the first one left:
    this holds with repeated tokens too. *)
Theorem set_boot_device_gen1_idempotent {store : BootStore host}
    identity boot_source w w1 :
  get_vm_generation identity (backend w) = Ok VM_GEN_1 ->
  set_boot_device identity boot_source w = (Ok tt, w1) ->
  exists vssd1,
    _lookup_vm_check identity (backend w1) = Ok vssd1
    /\ set_boot_device identity boot_source w1
       = vm_set_boot_order identity (BootOrder vssd1)
           (World (backend w1)
              (calls w1 ++ [Call_get_vm_generation identity;
                            Call_lookup_vm_check identity]))
    /\ forall w2,
         set_boot_device identity boot_source w1 = (Ok tt, w2) ->
         _lookup_vm_check identity (backend w2) = Ok vssd1.
Proof.
  intros Hg Hrun.
  rewrite (set_boot_device_on_gen1 _ _ _ Hg) in Hrun.
  destruct (_set_boot_device_gen1_inv _ _ _ _ Hrun)
    as (vssd & token & removed & Hl & Hget & Hremove).
  cbn [backend] in Hl.
  rewrite (_set_boot_device_gen1_run identity boot_source
             (World (backend w) (calls w ++ [Call_get_vm_generation identity]))
             vssd token removed Hl Hget Hremove) in Hrun.
  unfold vm_set_boot_order, command in Hrun. cbn [backend calls] in Hrun.
  destruct (set_boot_order identity (token :: removed) (backend w))
    as [r h1] eqn:Hset.
  injection Hrun as -> <-. cbn [backend calls].
  pose proof (set_boot_order_stored _ _ _ _ _ Hset Hl) as Hl1.
  assert (Hg1 : get_vm_generation identity h1 = Ok VM_GEN_1)
    by (now rewrite (set_boot_order_generation _ _ _ _ identity Hset)).
  set (vssd1 := {| InstanceID := InstanceID vssd;
                   BootOrder := token :: removed;
                   BootSourceOrder := BootSourceOrder vssd |}) in *.
  assert (Hsecond :
    forall cs, set_boot_device identity boot_source (World h1 cs)
    = vm_set_boot_order identity (token :: removed)
        (World h1 (cs ++ [Call_get_vm_generation identity;
                          Call_lookup_vm_check identity]))).
  { intros cs.
    rewrite (set_boot_device_on_gen1 identity boot_source (World h1 cs) Hg1).
    cbn [backend calls].
    rewrite (_set_boot_device_gen1_run identity boot_source
               (World h1 (cs ++ [Call_get_vm_generation identity]))
               vssd1 token removed Hl1 Hget).
    - cbn [backend calls]. now rewrite <- app_assoc.
    - cbn [BootOrder vssd1 list_remove]. now rewrite Z.eqb_refl. }
  exists vssd1. split; [exact Hl1 |]. split; [apply Hsecond |].
  intros w2 Hrun2. rewrite Hsecond in Hrun2.
  unfold vm_set_boot_order, command in Hrun2. cbn [backend calls] in Hrun2.
  destruct (set_boot_order identity (token :: removed) h1) as [r2 h2] eqn:Hset2.
  injection Hrun2 as -> <-. cbn [backend].
  exact (set_boot_order_stored _ _ _ _ _ Hset2 Hl1).
Qed.

End Generation1.

Section Generation1Sequence.

Context {host : Type} {consts : Constants} {vmutils : VMUtils host}
        {store : BootStore host}.

Implicit Types (w : world host) (identity : string).

(** One successful [set_boot_device] on a generation-1 VM whose boot order
    has no repetition: what the host then holds. *)
Lemma set_boot_device_gen1_stored identity boot_source token w vssd w1 :
  get_vm_generation identity (backend w) = Ok VM_GEN_1 ->
  _lookup_vm_check identity (backend w) = Ok vssd ->
  dict_get _BOOT_ORDER_MAP boot_source = Some token ->
  In token (BootOrder vssd) ->
  List.NoDup (BootOrder vssd) ->
  set_boot_device identity boot_source w = (Ok tt, w1) ->
  get_vm_generation identity (backend w1) = Ok VM_GEN_1
  /\ _lookup_vm_check identity (backend w1)
     = Ok {| InstanceID := InstanceID vssd;
             BootOrder :=
               token :: List.filter (fun t => negb (Z.eqb t token))
                          (BootOrder vssd);
             BootSourceOrder := BootSourceOrder vssd |}.
Proof.
  intros Hg Hl Hget Hin Hnodup Hrun.
  rewrite (set_boot_device_on_gen1 _ _ _ Hg) in Hrun.
  rewrite (_set_boot_device_gen1_run identity boot_source
             (World (backend w) (calls w ++ [Call_get_vm_generation identity]))
             vssd token _ Hl Hget (list_remove_NoDup _ _ Hnodup Hin)) in Hrun.
  unfold vm_set_boot_order, command in Hrun. cbn [backend calls] in Hrun.
  destruct (set_boot_order identity _ (backend w)) as [r h1] eqn:Hset.
  injection Hrun as -> <-. cbn [backend]. split.
  - now rewrite (set_boot_order_generation _ _ _ _ identity Hset).
  - exact (set_boot_order_stored _ _ _ _ _ Hset Hl).
Qed.

(** The last request wins and the one before it comes second: after
    [set_boot_device] for class [a] and then for class [b], on a
    generation-1 VM whose boot order has no repetition and holds both
    tokens, the stored order is [b]'s token, [a]'s token, then the other
    entries in their original order, and [get_boot_device] returns [b]. *)
Theorem set_boot_device_gen1_last_request_first
    identity a b ta tb w vssd w1 w2 :
  List.NoDup (map snd _BOOT_ORDER_MAP) ->
  get_vm_generation identity (backend w) = Ok VM_GEN_1 ->
  _lookup_vm_check identity (backend w) = Ok vssd ->
  dict_get _BOOT_ORDER_MAP a = Some ta ->
  dict_get _BOOT_ORDER_MAP b = Some tb ->
  ta <> tb ->
  In ta (BootOrder vssd) ->
  In tb (BootOrder vssd) ->
  List.NoDup (BootOrder vssd) ->
  set_boot_device identity a w = (Ok tt, w1) ->
  set_boot_device identity b w1 = (Ok tt, w2) ->
  (exists vssd2,
      _lookup_vm_check identity (backend w2) = Ok vssd2
      /\ BootOrder vssd2
         = tb :: ta :: List.filter (fun t => negb (Z.eqb t tb))
                         (List.filter (fun t => negb (Z.eqb t ta))
                            (BootOrder vssd)))
  /\ fst (get_boot_device identity w2) = Ok (Some b).
Proof.
  intros Hvalues Hg Hl Ha Hb Hne Hina Hinb Hnodup Hrun1 Hrun2.
  destruct (set_boot_device_gen1_stored _ _ _ _ _ _ Hg Hl Ha Hina Hnodup Hrun1)
    as (Hg1 & Hl1).
  set (others := List.filter (fun t => negb (Z.eqb t ta)) (BootOrder vssd)) in *.
  assert (Hinb1 : In tb (ta :: others)).
  { right. apply filter_In. split; [exact Hinb |].
    apply negb_true_iff, Z.eqb_neq. congruence. }
  assert (Hnodup1 : List.NoDup (ta :: others)).
  { constructor; [| now apply List.NoDup_filter].
    intros Hin. apply filter_In in Hin. destruct Hin as [_ Hin].
    now rewrite Z.eqb_refl in Hin. }
  destruct (set_boot_device_gen1_stored _ _ _ _ _ _ Hg1 Hl1 Hb Hinb1 Hnodup1
              Hrun2) as (Hg2 & Hl2).
  cbn [BootOrder InstanceID BootSourceOrder List.filter] in Hl2.
  assert (Hkeep : negb (Z.eqb ta tb) = true)
    by (now apply negb_true_iff, Z.eqb_neq).
  rewrite Hkeep in Hl2. split.
  - eexists. split; [exact Hl2 | reflexivity].
  - rewrite (get_boot_device_on_gen1 _ _ Hg2). unfold _get_boot_device_gen1.
    erewrite bind_ok by (apply lookup_step; exact Hl2). cbn [BootOrder].
    erewrite next_key_of_dict_get; [reflexivity | exact Hvalues | exact Hb].
Qed.

End Generation1Sequence.

Section Generation2.

Context {host : Type} {consts : Constants} {vmutils : VMUtils host}.

Implicit Types (w : world host) (identity boot_source : string).

(** ** Reading the boot device of a generation-2 VM *)

(** [get_boot_device] on a VM of a generation other than 1 looks at the
    first boot source and at no other: a network source is "Pxe" whatever it
    is associated with; a drive is "Hdd", "Cd" or [None] by the subtype of
    its first associated resource, and [IndexError] when it has none; a
    source of any other type is [None]. *)
Theorem get_boot_device_gen2_first_source
    identity w generation vssd first rest bssd :
  get_vm_generation identity (backend w) = Ok generation ->
  generation <> VM_GEN_1 ->
  _lookup_vm_check identity (backend w) = Ok vssd ->
  BootSourceOrder vssd = first :: rest ->
  _get_wmi_obj first (backend w) = Ok bssd ->
  (BootSourceType bssd = _BOOT_SOURCE_TYPE_NETWORK ->
   fst (get_boot_device identity w) = Ok (Some "Pxe"))
  /\ (BootSourceType bssd = _BOOT_SOURCE_TYPE_DRIVE ->
      associators bssd = [] ->
      fst (get_boot_device identity w) = Raise IndexError)
  /\ (BootSourceType bssd = _BOOT_SOURCE_TYPE_DRIVE ->
      forall rasd others, associators bssd = rasd :: others ->
      fst (get_boot_device identity w)
      = Ok (if String.eqb (ResourceSubType rasd) _DISK_DRIVE_RES_SUB_TYPE
            then Some "Hdd"
            else if String.eqb (ResourceSubType rasd) _DVD_DRIVE_RES_SUB_TYPE
                 then Some "Cd" else None))
  /\ (BootSourceType bssd <> _BOOT_SOURCE_TYPE_NETWORK ->
      BootSourceType bssd <> _BOOT_SOURCE_TYPE_DRIVE ->
      fst (get_boot_device identity w) = Ok None)
  /\ calls (snd (get_boot_device identity w))
     = calls w ++ [Call_get_vm_generation identity;
                   Call_lookup_vm_check identity;
                   Call_get_wmi_obj first].
Proof.
  intros Hg Hne Hl Horder Hobj.
  rewrite (get_boot_device_on_gen2 _ _ _ Hg Hne). unfold _get_boot_device_gen2.
  erewrite bind_ok by (apply lookup_step; exact Hl). rewrite Horder.
  erewrite bind_ok by (apply wmi_obj_step; exact Hobj). cbn [backend calls].
  unfold boot_source_class, bind, lift, ret.
  repeat split.
  - intros ->. reflexivity.
  - intros -> ->. reflexivity.
  - intros -> rasd others ->. cbn.
    destruct (String.eqb (ResourceSubType rasd) _DISK_DRIVE_RES_SUB_TYPE);
      [reflexivity |].
    now destruct (String.eqb (ResourceSubType rasd) _DVD_DRIVE_RES_SUB_TYPE).
  - intros Hnet Hdrive. apply Z.eqb_neq in Hnet, Hdrive.
    now rewrite Hnet, Hdrive.
  - rewrite <- !app_assoc. cbn [app].
    destruct (Z.eqb (BootSourceType bssd) _BOOT_SOURCE_TYPE_NETWORK);
      [reflexivity |].
    destruct (Z.eqb (BootSourceType bssd) _BOOT_SOURCE_TYPE_DRIVE);
      [| reflexivity].
    destruct (associators bssd) as [| rasd others]; [reflexivity |]. cbn.
    destruct (String.eqb (ResourceSubType rasd) _DISK_DRIVE_RES_SUB_TYPE);
      [reflexivity |].
    now destruct (String.eqb (ResourceSubType rasd) _DVD_DRIVE_RES_SUB_TYPE).
Qed.

(** ** Setting the boot device of a generation-2 VM *)





(** On a generation-2 VM whose boot sources all resolve, requesting the
    class of the boot source that is already first keeps it first; the
    sources behind it are partitioned among themselves, so the order may
    still change.  (When a boot source does not resolve the request raises,
    also when the first one is already of the class.) *)
Theorem set_boot_device_gen2_keeps_selected_head
    identity boot_source w generation vssd first rest :
  get_vm_generation identity (backend w) = Ok generation ->
  generation <> VM_GEN_1 ->
  _lookup_vm_check identity (backend w) = Ok vssd ->
  Forall (resolvable boot_source (backend w)) (BootSourceOrder vssd) ->
  BootSourceOrder vssd = first :: rest ->
  selected boot_source (backend w) first = true ->
  set_boot_device identity boot_source w
  = vm_modify_virtual_system
      (set_BootSourceOrder vssd
         (first :: stable_partition boot_source (backend w) rest))
      (World (backend w)
         (calls w ++ Call_get_vm_generation identity
                     :: Call_lookup_vm_check identity
                     :: map Call_get_wmi_obj (BootSourceOrder vssd)))
  /\ Permutation rest (stable_partition boot_source (backend w) rest).
Proof.
  intros Hg Hne Hl Hall Horder Hsel. split.
  - rewrite (set_boot_device_on_gen2 _ _ _ _ Hg Hne).
    rewrite (_set_boot_device_gen2_run identity boot_source
               (World (backend w) (calls w ++ [Call_get_vm_generation identity]))
               vssd Hl Hall).
    cbn [backend calls]. rewrite <- app_assoc. cbn [app].
    do 2 f_equal. rewrite Horder. unfold stable_partition.
    cbn [List.filter]. now rewrite Hsel.
  - apply stable_partition_Permutation.
Qed.

Lemma read_only_gen2_loop boot_source (old : list string) :
  forall acc : list string,
    read_only (for_each old (gen2_loop_body (host := host) boot_source) acc).
Proof.
  induction old as [| d old IH]; intros acc; cbn [for_each].
  - apply read_only_ret.
  - apply read_only_bind; [| exact IH].
    unfold gen2_loop_body, vm_get_wmi_obj.
    repeat first
      [ apply read_only_ret
      | apply read_only_lift
      | apply read_only_query; reflexivity
      | apply read_only_bind; [| intros ?]
      | match goal with
        | |- read_only (if ?b then _ else _) => destruct b
        end ].
Qed.

(** Nothing is persisted unless every boot source resolves: when one does
    not, [set_boot_device] raises, the host is left as it was and
    [_modify_virtual_system] is not called. *)
Theorem set_boot_device_gen2_unresolvable
    identity boot_source w generation vssd :
  get_vm_generation identity (backend w) = Ok generation ->
  generation <> VM_GEN_1 ->
  _lookup_vm_check identity (backend w) = Ok vssd ->
  ~ Forall (resolvable boot_source (backend w)) (BootSourceOrder vssd) ->
  (exists ex, fst (set_boot_device identity boot_source w) = Raise ex)
  /\ backend (snd (set_boot_device identity boot_source w)) = backend w
  /\ List.filter is_persist_call
       (calls (snd (set_boot_device identity boot_source w)))
     = List.filter is_persist_call (calls w).
Proof.
  intros Hg Hne Hl Hnot.
  rewrite (set_boot_device_on_gen2 _ _ _ _ Hg Hne).
  unfold _set_boot_device_gen2.
  erewrite bind_ok by (apply lookup_step; exact Hl).
  cbn [backend calls]. unfold bind.
  pose proof (read_only_gen2_loop boot_source (BootSourceOrder vssd) []
                (World (backend w)
                   ((calls w ++ [Call_get_vm_generation identity])
                    ++ [Call_lookup_vm_check identity])))
    as (Hhost & _ & Hcalls).
  destruct (for_each (BootSourceOrder vssd) (gen2_loop_body boot_source) [] _)
    as [[sel | ex] w'] eqn:Hloop.
  - elim Hnot. exact (for_each_gen2_inv _ _ _ _ _ _ Hloop).
  - cbn [fst snd backend calls] in *. split; [now exists ex |].
    split; [exact Hhost |]. rewrite Hcalls, !List.filter_app. cbn.
    now rewrite !app_nil_r.
Qed.

(** [set_boot_device] does not wrap what the hypervisor raises when asked
    to persist: the exception of [set_boot_order] (generation 1) or of
    [_modify_virtual_system] (any other generation) is raised as it is,
    [FishyError] or not. *)
Theorem set_boot_device_persist_failure_unwrapped
    identity boot_source w generation vssd ex :
  get_vm_generation identity (backend w) = Ok generation ->
  _lookup_vm_check identity (backend w) = Ok vssd ->
  (generation = VM_GEN_1 ->
   forall token removed h',
     dict_get _BOOT_ORDER_MAP boot_source = Some token ->
     list_remove token (BootOrder vssd) = Some removed ->
     set_boot_order identity (token :: removed) (backend w) = (Raise ex, h') ->
     fst (set_boot_device identity boot_source w) = Raise ex)
  /\ (generation <> VM_GEN_1 ->
      forall h',
        Forall (resolvable boot_source (backend w)) (BootSourceOrder vssd) ->
        _modify_virtual_system
          (set_BootSourceOrder vssd
             (stable_partition boot_source (backend w) (BootSourceOrder vssd)))
          (backend w) = (Raise ex, h') ->
        fst (set_boot_device identity boot_source w) = Raise ex).
Proof.
  intros Hg Hl. split.
  - intros -> token removed h' Hget Hremove Hset.
    rewrite (set_boot_device_on_gen1 _ _ _ Hg).
    rewrite (_set_boot_device_gen1_run identity boot_source
               (World (backend w) (calls w ++ [Call_get_vm_generation identity]))
               vssd token removed Hl Hget Hremove).
    unfold vm_set_boot_order, command. cbn [backend calls].
    now rewrite Hset.
  - intros Hne h' Hall Hmod.
    rewrite (set_boot_device_on_gen2 _ _ _ _ Hg Hne).
    rewrite (_set_boot_device_gen2_run identity boot_source
               (World (backend w) (calls w ++ [Call_get_vm_generation identity]))
               vssd Hl Hall).
    unfold vm_modify_virtual_system, command. cbn [backend calls].
    now rewrite Hmod.
Qed.

End Generation2.

Section Generation2Sequence.

Context {host : Type} {consts : Constants} {vmutils : VMUtils host}
        {store : BootStore host}.

Implicit Types (w : world host) (identity boot_source : string).

Lemma well_formed_resolvable boot_source (h : host) d :
  (exists bssd, _get_wmi_obj d h = Ok bssd /\ well_formed bssd) ->
  resolvable boot_source h d.
Proof.
  intros (bssd & Hobj & Hwf). exists bssd. split; [exact Hobj | right].
  unfold well_formed in Hwf. now destruct (associators bssd).
Qed.

(** On a host that stores what it is handed, with well-formed boot source
    records: once [set_boot_device] has returned for a class some boot source
    of the VM is of, [get_boot_device] returns that class. *)
Theorem set_then_get_boot_device_gen2
    identity boot_source w generation vssd w1 :
  _DISK_DRIVE_RES_SUB_TYPE <> _DVD_DRIVE_RES_SUB_TYPE ->
  get_vm_generation identity (backend w) = Ok generation ->
  generation <> VM_GEN_1 ->
  _lookup_vm_check identity (backend w) = Ok vssd ->
  Forall (fun d => exists bssd,
              _get_wmi_obj d (backend w) = Ok bssd /\ well_formed bssd)
    (BootSourceOrder vssd) ->
  Exists (fun d => selected boot_source (backend w) d = true)
    (BootSourceOrder vssd) ->
  set_boot_device identity boot_source w = (Ok tt, w1) ->
  fst (get_boot_device identity w1) = Ok (Some boot_source).
Proof.
  intros Hdistinct Hg Hne Hl Hwf Hsome Hrun.
  assert (Hall : Forall (resolvable boot_source (backend w))
                   (BootSourceOrder vssd)).
  { eapply List.Forall_impl; [| exact Hwf].
    intros d. apply well_formed_resolvable. }
  rewrite (set_boot_device_on_gen2 _ _ _ _ Hg Hne) in Hrun.
  rewrite (_set_boot_device_gen2_run identity boot_source
             (World (backend w) (calls w ++ [Call_get_vm_generation identity]))
             vssd Hl Hall) in Hrun.
  unfold vm_modify_virtual_system, command in Hrun. cbn [backend calls] in Hrun.
  destruct (_modify_virtual_system _ (backend w)) as [r h1] eqn:Hmod.
  injection Hrun as -> <-.
  pose proof (modify_stored _ _ _ _ _ Hmod Hl eq_refl) as Hl1.
  assert (Hg1 : get_vm_generation identity h1 = Ok generation)
    by (now rewrite (modify_generation _ _ _ identity Hmod)).
  apply List.Exists_exists in Hsome. destruct Hsome as (d & Hin & Hsel).
  destruct (stable_partition_head _ _ _ _ Hin Hsel)
    as (first & rest & Hnew & Hfirst).
  assert (Hinfirst : In first (BootSourceOrder vssd)).
  { eapply Permutation_in;
      [symmetry; apply (stable_partition_Permutation boot_source (backend w)) |].
    rewrite Hnew. now left. }
  rewrite List.Forall_forall in Hwf.
  destruct (Hwf first Hinfirst) as (bssd & Hobj & Hbssd).
  unfold selected in Hfirst. rewrite Hobj in Hfirst.
  rewrite get_boot_device_on_gen2 with (generation := generation)
    by assumption.
  cbn [backend calls]. unfold _get_boot_device_gen2.
  erewrite bind_ok by (apply lookup_step; exact Hl1).
  cbn [BootSourceOrder set_BootSourceOrder]. rewrite Hnew.
  erewrite bind_ok
    by (apply wmi_obj_step; cbn [backend];
        rewrite (modify_wmi_obj _ _ _ first Hmod); exact Hobj).
  now apply selected_iff_class.
Qed.

End Generation2Sequence.

Section InventoryProperties.

Context {host : Type} {inventory : VMUtilsInventory host}.

(** [get_total_memory] and [get_total_cpus] never raise once the hypervisor
    has returned a summary: each answers the value under its own key, and
    [None] exactly when the summary lacks the key or holds [None] under it. *)
Theorem get_total_memory_and_cpus (identity : string) (h : host)
    (info : gmap string (option Z)) :
  get_vm_summary_info identity h = Ok info ->
  (forall value, info !! "MemoryUsage" = Some value ->
     Inventory.get_total_memory identity h = Ok value)
  /\ (forall value, info !! "NumberOfProcessors" = Some value ->
        Inventory.get_total_cpus identity h = Ok value)
  /\ (Inventory.get_total_memory identity h = Ok None
      <-> info !! "MemoryUsage" = None \/ info !! "MemoryUsage" = Some None)
  /\ (Inventory.get_total_cpus identity h = Ok None
      <-> info !! "NumberOfProcessors" = None
          \/ info !! "NumberOfProcessors" = Some None).
Proof.
  intros Hinfo.
  unfold Inventory.get_total_memory, Inventory.get_total_cpus,
    Inventory.summary_get.
  rewrite Hinfo.
  destruct (info !! "MemoryUsage") as [[m |] |];
    destruct (info !! "NumberOfProcessors") as [[n |] |];
    repeat split; intros; try congruence; auto;
    match goal with H : _ \/ _ |- _ => destruct H; congruence end.
Qed.

(** [get_nics] answers one dict per adapter, in the adapters' order; the
    dict of an adapter holds its [ElementName] under "id", its [Address]
    under "mac" and no other key. *)
Theorem get_nics_entries (identity : string) (h : host) (nics : list Nic) :
  _get_vm_nics identity h = Ok nics ->
  exists dicts : list (gmap string string),
    Inventory.get_nics identity h = Ok dicts
    /\ length dicts = length nics
    /\ forall i n,
         nth_error nics i = Some n ->
         exists d : gmap string string,
           nth_error dicts i = Some d
           /\ d !! "id" = Some (ElementName n)
           /\ d !! "mac" = Some (Address n)
           /\ forall key : string,
                key <> "id" -> key <> "mac" -> d !! key = None.
Proof.
  intros Hnics. exists (map Inventory.nic_dict nics).
  unfold Inventory.get_nics. rewrite Hnics.
  split; [reflexivity |]. split; [apply length_map |].
  intros i n Hi. exists (Inventory.nic_dict n).
  split; [now apply map_nth_error |].
  unfold Inventory.nic_dict. split; [| split].
  - rewrite lookup_insert_ne by discriminate. apply lookup_insert_eq.
  - apply lookup_insert_eq.
  - intros key Hid Hmac.
    rewrite !lookup_insert_ne by congruence. apply lookup_empty.
Qed.

End InventoryProperties.

(** * The further properties on the sample hosts *)

Section MoreSamples.

#[local] Existing Instance MemHost.constants.
#[local] Existing Instance MemHost.vmutils.
#[local] Existing Instance Fixtures.inventory.

(** "ForceOff" for "vm1" is one [set_vm_state] call with the state [3]. *)
Lemma set_power_state_hard_transition_sample :
  calls (snd (set_power_state "vm1" "ForceOff" MemHost.start))
  = [Call_set_vm_state "vm1" 3]
  /\ fst (set_power_state "vm1" "ForceOff" MemHost.start) = Ok tt.
Proof.
  destruct (set_power_state_hard_transition "vm1" "ForceOff" 3 MemHost.start)
    as (Hcalls & _ & Hreturns).
  - cbn. tauto.
  - discriminate.
  - split; [exact Hcalls | apply Hreturns; reflexivity].
Defined.

(** "GracefulRestart" is refused. *)
Lemma set_power_state_unsupported_sample :
  set_power_state "vm1" "GracefulRestart" MemHost.start
  = (Raise NotSupportedError, MemHost.start).
Proof.
  apply (set_power_state_unsupported "vm1" "GracefulRestart" MemHost.start).
  cbn. intuition discriminate.
Defined.

(** Switching on the missing VM "nope" raises, and raises a [FishyError]. *)
Lemma set_power_state_raises_FishyError_only_sample :
  exists ex,
    fst (set_power_state "nope" "On" MemHost.start) = Raise ex
    /\ get_vm_state "nope" MemHost.sample = Raise (MemHost.not_found "nope")
    /\ is_FishyError (MemHost.not_found "nope") = false
    /\ is_FishyError ex = true.
Proof.
  eexists. split; [reflexivity |]. split; [reflexivity |].
  split; [reflexivity |].
  apply (set_power_state_raises_FishyError_only "nope" "On" MemHost.start).
  reflexivity.
Defined.

(** For the missing VM "nope" the getters and [set_boot_device] raise the
    hypervisor's exception itself. *)
Lemma backend_failure_propagates_unwrapped_sample :
  fst (get_power_state "nope" MemHost.start) = Raise (MemHost.not_found "nope")
  /\ fst (get_boot_mode "nope" MemHost.start)
     = Raise (MemHost.not_found "nope")
  /\ fst (set_boot_device "nope" "Hdd" MemHost.start)
     = Raise (MemHost.not_found "nope").
Proof.
  destruct (backend_failure_propagates_unwrapped "nope" MemHost.start)
    as (Hstate & Hgeneration).
  destruct (Hgeneration (MemHost.not_found "nope")) as (Hmode & _ & Hset);
    [reflexivity |].
  split; [apply Hstate; reflexivity |]. split; [exact Hmode | apply Hset].
Defined.

(** "vm1" boots from the CD drive first. *)
Lemma get_boot_device_gen1_class_of_first_sample :
  fst (get_boot_device "vm1" MemHost.start) = Ok (Some "Cd").
Proof.
  apply (get_boot_device_gen1_class_of_first "vm1" "Cd" MemHost.start
           (MemHost.vssd_of "vm1" MemHost.gen1_vm) 1 [2; 3; 0]);
    try reflexivity.
  exact sample_tokens_distinct.
Defined.

(** "vm10" has no network entry in its boot order. *)
Lemma set_boot_device_gen1_token_absent_sample :
  fst (set_boot_device "vm10" "Pxe" Fixtures.start) = Raise ValueError
  /\ backend (snd (set_boot_device "vm10" "Pxe" Fixtures.start))
     = Fixtures.sample.
Proof.
  destruct (set_boot_device_gen1_token_absent "vm10" "Pxe" 3 Fixtures.start
              (MemHost.vssd_of "vm10" Fixtures.no_network_vm))
    as (Hraise & Hhost & _);
    [reflexivity | reflexivity | reflexivity | cbn; intuition discriminate |].
  split; [exact Hraise | exact Hhost].
Defined.

(** "vm9" has the network token twice: the first one moves. *)
Lemma set_boot_device_gen1_moves_first_occurrence_sample :
  set_boot_device "vm9" "Pxe" Fixtures.start
  = vm_set_boot_order "vm9" [3; 1; 2; 3]
      (World Fixtures.sample
         [Call_get_vm_generation "vm9"; Call_lookup_vm_check "vm9"]).
Proof.
  destruct (set_boot_device_gen1_moves_first_occurrence "vm9" "Pxe" 3
              Fixtures.start (MemHost.vssd_of "vm9" Fixtures.repeated_token_vm)
              [1] [2; 3]) as (Hrun & _);
    [reflexivity | reflexivity | reflexivity | reflexivity
    | cbn; intuition discriminate |].
  exact Hrun.
Defined.

(** "vm1" boots from the CD drive; requesting "Cd" hands back its order. *)
Lemma set_boot_device_gen1_of_current_sample :
  exists vssd,
    _lookup_vm_check "vm1" MemHost.sample = Ok vssd
    /\ set_boot_device "vm1" "Cd" MemHost.start
       = vm_set_boot_order "vm1" (BootOrder vssd)
           (World MemHost.sample
              [Call_get_vm_generation "vm1"; Call_lookup_vm_check "vm1"]).
Proof.
  apply (set_boot_device_gen1_of_current "vm1" MemHost.start "Cd");
    reflexivity.
Defined.

(** A second "Pxe" request for "vm9" stores what the first one stored. *)
Lemma set_boot_device_gen1_idempotent_sample :
  let w1 := snd (set_boot_device "vm9" "Pxe" Fixtures.start) in
  exists vssd1,
    _lookup_vm_check "vm9" (backend w1) = Ok vssd1
    /\ _lookup_vm_check "vm9"
         (backend (snd (set_boot_device "vm9" "Pxe" w1))) = Ok vssd1.
Proof.
  intros w1.
  destruct (set_boot_device_gen1_idempotent (store := MemHost_lawful)
              "vm9" "Pxe" Fixtures.start w1) as (vssd1 & Hl1 & _ & Hsame).
  - reflexivity.
  - vm_compute. reflexivity.
  - exists vssd1. split; [exact Hl1 |].
    apply Hsame. vm_compute. reflexivity.
Defined.

(** "Pxe" then "Hdd" for "vm1": disk, network, CD, floppy. *)
Lemma set_boot_device_gen1_last_request_first_sample :
  let w1 := snd (set_boot_device "vm1" "Pxe" MemHost.start) in
  let w2 := snd (set_boot_device "vm1" "Hdd" w1) in
  (exists vssd2,
      _lookup_vm_check "vm1" (backend w2) = Ok vssd2
      /\ BootOrder vssd2 = [2; 3; 1; 0])
  /\ fst (get_boot_device "vm1" w2) = Ok (Some "Hdd").
Proof.
  intros w1 w2.
  apply (set_boot_device_gen1_last_request_first (store := MemHost_lawful)
           "vm1" "Pxe" "Hdd" 3 2 MemHost.start
           (MemHost.vssd_of "vm1" MemHost.gen1_vm) w1 w2);
    try reflexivity; try (vm_compute; reflexivity).
  - exact sample_tokens_distinct.
  - discriminate.
  - cbn. tauto.
  - cbn. tauto.
  - repeat constructor; cbn; intuition discriminate.
Defined.

(** "vm7" has a drive entry with no device first; "vm2" a network card. *)
Lemma get_boot_device_gen2_first_source_sample :
  fst (get_boot_device "vm7" Fixtures.start) = Raise IndexError
  /\ fst (get_boot_device "vm2" MemHost.start) = Ok (Some "Pxe").
Proof.
  split.
  - destruct (get_boot_device_gen2_first_source "vm7" Fixtures.start 2
                (MemHost.vssd_of "vm7" Fixtures.bare_first_vm)
                "bare0" ["net0"] Fixtures.bare0)
      as (_ & Hbare & _);
      [reflexivity | discriminate | reflexivity | reflexivity | reflexivity |].
    apply Hbare; reflexivity.
  - destruct (get_boot_device_gen2_first_source "vm2" MemHost.start 2
                (MemHost.vssd_of "vm2" MemHost.gen2_vm)
                "net0" ["disk0"; "dvd0"] MemHost.net0)
      as (Hnet & _);
      [reflexivity | discriminate | reflexivity | reflexivity | reflexivity |].
    apply Hnet; reflexivity.
Defined.


(** "Hdd" for "vm8", which boots disk0, net0, disk1: disk0 stays first and
    disk1 moves ahead of net0. *)
Lemma set_boot_device_gen2_keeps_selected_head_sample :
  set_boot_device "vm8" "Hdd" Fixtures.start
  = vm_modify_virtual_system
      {| InstanceID := "vm8"; BootOrder := [];
         BootSourceOrder := ["disk0"; "disk1"; "net0"] |}
      (World Fixtures.sample
         [Call_get_vm_generation "vm8"; Call_lookup_vm_check "vm8";
          Call_get_wmi_obj "disk0"; Call_get_wmi_obj "net0";
          Call_get_wmi_obj "disk1"]).
Proof.
  destruct (set_boot_device_gen2_keeps_selected_head "vm8" "Hdd"
              Fixtures.start 2 (MemHost.vssd_of "vm8" Fixtures.two_disks_vm)
              "disk0" ["net0"; "disk1"]) as (Hrun & _);
    [reflexivity | discriminate | reflexivity
    | repeat constructor; eexists; (split; [reflexivity | right; discriminate])
    | reflexivity | reflexivity |].
  exact Hrun.
Defined.

(** "vm6" has a firmware file entry: nothing is persisted. *)
Lemma set_boot_device_gen2_unresolvable_sample :
  (exists ex, fst (set_boot_device "vm6" "Hdd" Fixtures.start) = Raise ex)
  /\ backend (snd (set_boot_device "vm6" "Hdd" Fixtures.start))
     = Fixtures.sample.
Proof.
  destruct (set_boot_device_gen2_unresolvable "vm6" "Hdd" Fixtures.start 2
              (MemHost.vssd_of "vm6" Fixtures.file_entry_vm))
    as (Hraise & Hhost & _); [reflexivity | discriminate | reflexivity | |].
  - intros Hall. inversion Hall as [| ? ? _ Hrest]; subst.
    inversion Hrest as [| ? ? Hfile _]; subst.
    destruct Hfile as (bssd & Hobj & [Hnet | Hassoc]).
    + injection Hobj as <-. discriminate Hnet.
    + injection Hobj as <-. now apply Hassoc.
  - split; [exact Hraise | exact Hhost].
Defined.

(** Behind a connection that refuses writes, "Hdd" for "vm2" raises the
    refusal itself. *)
Lemma set_boot_device_persist_failure_unwrapped_sample :
  fst (set_boot_device (vmutils := Fixtures.read_only_vmutils)
         "vm2" "Hdd" MemHost.start)
  = Raise Fixtures.refused.
Proof.
  destruct (set_boot_device_persist_failure_unwrapped
              (vmutils := Fixtures.read_only_vmutils)
              "vm2" "Hdd" MemHost.start 2
              (MemHost.vssd_of "vm2" MemHost.gen2_vm) Fixtures.refused)
    as (_ & Hgen2); [reflexivity | reflexivity |].
  apply (Hgen2 ltac:(discriminate) MemHost.sample); [| reflexivity].
  repeat constructor; eexists; (split; [reflexivity | right; discriminate]).
Defined.

(** After "Cd" for "vm2", "vm2" boots from the DVD drive. *)
Lemma set_then_get_boot_device_gen2_sample :
  fst (get_boot_device "vm2"
         (snd (set_boot_device "vm2" "Cd" MemHost.start)))
  = Ok (Some "Cd").
Proof.
  apply (set_then_get_boot_device_gen2 (store := MemHost_lawful)
           "vm2" "Cd" MemHost.start 2 (MemHost.vssd_of "vm2" MemHost.gen2_vm));
    try reflexivity; try discriminate.
  - repeat constructor; eexists;
      (split; [reflexivity | cbn; intuition discriminate]).
  - apply List.Exists_exists. exists "dvd0". split; [cbn; tauto | reflexivity].
Defined.

(** The summary of "vm2" has no "MemoryUsage"; that of "vm3" holds [None]
    under it. *)
Lemma get_total_memory_and_cpus_sample :
  Inventory.get_total_memory "vm2" Fixtures.inventory_sample = Ok None
  /\ Inventory.get_total_cpus "vm2" Fixtures.inventory_sample = Ok (Some 4)
  /\ Inventory.get_total_memory "vm3" Fixtures.inventory_sample = Ok None.
Proof.
  destruct (get_total_memory_and_cpus "vm2" Fixtures.inventory_sample
              (<["NumberOfProcessors" := Some 4]> ∅))
    as (_ & Hcpus & Hmemory & _); [reflexivity |].
  destruct (get_total_memory_and_cpus "vm3" Fixtures.inventory_sample
              (<["MemoryUsage" := None]> (<["NumberOfProcessors" := Some 1]> ∅)))
    as (_ & _ & Hmemory3 & _); [reflexivity |].
  split; [apply Hmemory; left; reflexivity |].
  split; [apply Hcpus; reflexivity | apply Hmemory3; right; reflexivity].
Defined.

(** "vm1" has two adapters. *)
Lemma get_nics_entries_sample :
  exists dicts : list (gmap string string),
    Inventory.get_nics "vm1" Fixtures.inventory_sample = Ok dicts
    /\ length dicts = 2%nat.
Proof.
  destruct (get_nics_entries "vm1" Fixtures.inventory_sample
              [ {| ElementName := "nic0"; Address := "00155D010203" |};
                {| ElementName := "nic1"; Address := "00155D010204" |} ])
    as (dicts & Hrun & Hlen & _); [reflexivity |].
  exists dicts. split; [exact Hrun | exact Hlen].
Defined.

End MoreSamples.

(** * Where the stable partition fails *)

Section Counterexamples.

#[local] Existing Instance MemHost.constants.
#[local] Existing Instance MemHost.vmutils.


End Counterexamples.
